(** * temporal-parseable: OTLP protobuf-to-JSON adapter, envelope builder,
      teardown and activity metrics

    A shallow embedding of the Python sources

    - [src/temporal_parseable/exporters.py]
    - [src/temporal_parseable/config.py]
    - [src/temporal_parseable/plugin.py]
    - [src/temporal_parseable/metrics_interceptor.py]

    together with the slices of the Python standard library ([base64],
    [binascii], [bytes.hex]) and of [requests] ([CaseInsensitiveDict],
    [Session.mount], [Session.get_adapter]) that these sources call.

    Representation choices.

    - A Python [str] is a Rocq [string] holding the UTF-8 encoding of the
      text, so [str.encode()] and [bytes.decode()] only change the
      container; a character is ASCII exactly when its code is below 128.
      [str.lower()] is computed on ASCII text and a parameter on other
      text.
    - A Python [bytes] is a [list byte].
    - A Python [dict] is an insertion-ordered association list whose keys
      are pairwise distinct.
    - A call that may raise returns its exception as a value: [send]
      returns a sum ([inr] for the exception), the teardown and the
      interceptor return the events they performed together with how they
      ended. *)

From Stdlib Require Import List String Ascii NArith ZArith Bool Lia DecimalString.
From Stdlib.Strings Require Import Byte.
From Stdlib.Floats Require Import PrimFloat.
Import ListNotations.

Local Open Scope string_scope.
Local Open Scope list_scope.
Local Open Scope N_scope.

(* ================================================================== *)
(** * Python built-ins *)
(* ================================================================== *)

Module Py.

Definition str := string.
Definition bytes := list byte.

(** [s.encode()] / [s.encode("utf-8")] *)
Definition encode (s : str) : bytes := list_byte_of_string s.

(** [b.decode()] *)
Definition decode (b : bytes) : str := string_of_list_byte b.

(** An unsigned char: the low eight bits of [n]. *)
Definition u8 (n : N) : byte :=
  match Byte.of_N (N.land n 255) with
  | Some b => b
  | None => x00
  end.

Definition is_ascii_char (c : ascii) : bool := N_of_ascii c <? 128.

(** [s.encode("ascii")]: raises [UnicodeEncodeError] (here [None]) on a
    character outside ASCII. *)
Definition encode_ascii (s : str) : option bytes :=
  if forallb is_ascii_char (list_ascii_of_string s)
  then Some (encode s) else None.

Definition hexdigits : list ascii := list_ascii_of_string "0123456789abcdef".

Definition hexdigit (n : N) : ascii := nth (N.to_nat n) hexdigits "0"%char.

(** [bytes.hex()]: two lowercase hexadecimal digits per byte, high
    nibble first. *)
Fixpoint hex (b : bytes) : str :=
  match b with
  | [] => EmptyString
  | x :: rest =>
      String (hexdigit (N.shiftr (Byte.to_N x) 4))
        (String (hexdigit (N.land (Byte.to_N x) 15)) (hex rest))
  end.

(** [str(n)] for a non-negative integer. *)
Definition str_of_nat (n : nat) : str :=
  NilEmpty.string_of_uint (Nat.to_uint n).

(** [len(b)] *)
Definition len (b : bytes) : nat := List.length b.

Definition lower_char (c : ascii) : ascii :=
  let n := N_of_ascii c in
  if (65 <=? n) && (n <=? 90) then ascii_of_N (n + 32) else c.

(** ASCII case folding: [A]-[Z] become [a]-[z], every other character
    stays.  On ASCII text this is [s.lower()]; the header names the
    adapter reads and writes and the prefixes of a fresh session are
    ASCII.  On other text [str.lower()] folds more (accented letters, the
    Kelvin sign): where the code lowercases text it does not control,
    the URL and the mounted prefix in [Session.get_adapter], the model
    takes [str.lower()] as a parameter ([Exporters.get_adapter_by]). *)
Fixpoint lower (s : str) : str :=
  match s with
  | EmptyString => EmptyString
  | String c rest => String (lower_char c) (lower rest)
  end.

(** [s.startswith(p)] *)
Definition startswith (s p : str) : bool := String.prefix p s.

(** A raised exception: the name of its class and whether that class
    derives from [Exception] (every class derives from [BaseException];
    [KeyboardInterrupt], [SystemExit] and [asyncio.CancelledError] do not
    derive from [Exception]). *)
Record exn := {
  exn_type : str;
  is_Exception : bool
}.

(** The result of a call: a value or a raised exception. *)
Inductive outcome (A : Type) :=
| Returns (a : A)
| Raises (e : exn).
Arguments Returns {A} a.
Arguments Raises {A} e.

End Py.

(* ================================================================== *)
(** * The [base64] module of the standard library *)
(* ================================================================== *)

Module Base64.
Import Py.

Definition BASE64_PAD : byte := "="%byte.

Definition table_b2a_base64 : list byte :=
  list_byte_of_string
    "ABCDEFGHIJKLMNOPQRSTUVWXYZabcdefghijklmnopqrstuvwxyz0123456789+/".

(** The character of a six-bit value. *)
Definition b2a (n : N) : byte := nth (N.to_nat n) table_b2a_base64 BASE64_PAD.

Fixpoint index_of (c : byte) (l : list byte) (i : N) : option N :=
  match l with
  | [] => None
  | x :: rest => if Byte.eqb x c then Some i else index_of c rest (i + 1)
  end.

(** The six-bit value of a character of the alphabet; [None] for every
    other character (the C table holds an out-of-range marker there). *)
Definition table_a2b_base64 (c : byte) : option N :=
  index_of c table_b2a_base64 0.

(** The four six-bit groups of a three-byte quantum. *)
Definition sextet0 (a : byte) : N := N.shiftr (to_N a) 2.
Definition sextet1 (a b : byte) : N :=
  N.lor (N.shiftl (N.land (to_N a) 3) 4) (N.shiftr (to_N b) 4).
Definition sextet2 (b c : byte) : N :=
  N.lor (N.shiftl (N.land (to_N b) 15) 2) (N.shiftr (to_N c) 6).
Definition sextet3 (c : byte) : N := N.land (to_N c) 63.

(** [binascii.b2a_base64(data, newline=False)]: three bytes become four
    characters; a final group of one or two bytes is padded with [=]. *)
Fixpoint b2a_base64 (data : bytes) : bytes :=
  match data with
  | [] => []
  | [a] =>
      [b2a (sextet0 a); b2a (sextet1 a x00); BASE64_PAD; BASE64_PAD]
  | [a; b] =>
      [b2a (sextet0 a); b2a (sextet1 a b); b2a (sextet2 b x00); BASE64_PAD]
  | a :: b :: c :: rest =>
      b2a (sextet0 a) :: b2a (sextet1 a b) :: b2a (sextet2 b c)
        :: b2a (sextet3 c) :: b2a_base64 rest
  end.

(** [base64.b64encode(s)] *)
Definition b64encode (s : bytes) : bytes := b2a_base64 s.

(** The decoding loop of [binascii.a2b_base64] with [strict_mode] off.
    [quad_pos] is the position inside the current group of four
    characters, [leftchar] the bits carried over from the previous
    character, [pads] the number of [=] seen since the last data
    character, [bin_data] the bytes written so far.  [None] is
    [binascii.Error]. *)
Fixpoint a2b_loop (ascii_data : bytes) (quad_pos leftchar pads : N)
         (bin_data : bytes) : option bytes :=
  match ascii_data with
  | [] => if quad_pos =? 0 then Some bin_data else None
  | this_ch :: rest =>
      if Byte.eqb this_ch BASE64_PAD then
        if (2 <=? quad_pos) && (4 <=? quad_pos + (pads + 1))
        then Some bin_data
        else a2b_loop rest quad_pos leftchar
               (if 2 <=? quad_pos then pads + 1 else pads) bin_data
      else
        match table_a2b_base64 this_ch with
        | None => a2b_loop rest quad_pos leftchar pads bin_data
        | Some v =>
            match quad_pos with
            | 0 => a2b_loop rest 1 v 0 bin_data
            | 1 => a2b_loop rest 2 (N.land v 15) 0
                     (bin_data ++ [u8 (N.lor (N.shiftl leftchar 2) (N.shiftr v 4))])
            | 2 => a2b_loop rest 3 (N.land v 3) 0
                     (bin_data ++ [u8 (N.lor (N.shiftl leftchar 4) (N.shiftr v 2))])
            | _ => a2b_loop rest 0 0 0
                     (bin_data ++ [u8 (N.lor (N.shiftl leftchar 6) v)])
            end
        end
  end.

Definition a2b_base64 (data : bytes) : option bytes :=
  a2b_loop data 0 0 0 [].

(** [base64.b64decode(s)] on a [str] argument, [validate] left at its
    default [False]: the text is first encoded as ASCII (a [ValueError]
    on failure), then handed to [binascii.a2b_base64].  [None] stands
    for either exception. *)
Definition b64decode (s : str) : option bytes :=
  match encode_ascii s with
  | Some data => a2b_base64 data
  | None => None
  end.

End Base64.

(* ================================================================== *)
(** * [config.py] *)
(* ================================================================== *)

Module Config.
Import Py.

Record ParseableConfig := {
  url : str;
  username : str;
  password : str;
  traces_stream : str;
  logs_stream : str;
  metrics_stream : str;
  temporal_host : str;
  temporal_namespace : str;
  service_name : str;
  enable_traces : bool;
  enable_logs : bool;
  enable_metrics : bool
}.

(** [ParseableConfig()] with no [PARSEABLE_] variable in the environment. *)
Definition default_config : ParseableConfig := {|
  url := "http://localhost:8000";
  username := "admin";
  password := "admin";
  traces_stream := "temporal-traces";
  logs_stream := "temporal-logs";
  metrics_stream := "temporal-metrics";
  temporal_host := "localhost:7233";
  temporal_namespace := "default";
  service_name := "temporal-worker";
  enable_traces := true;
  enable_logs := true;
  enable_metrics := true
|}.

Definition auth_header (self : ParseableConfig) : str :=
  let token :=
    decode (Base64.b64encode
              (encode (username self ++ ":" ++ password self)%string)) in
  ("Basic " ++ token)%string.

Definition _LOG_SOURCE_MAP : list (str * str) :=
  [("traces", "otel-traces");
   ("logs", "otel-logs");
   ("metrics", "otel-metrics")].

(** [d.get(key, default)] *)
Fixpoint dict_get_default (d : list (str * str)) (key default : str) : str :=
  match d with
  | [] => default
  | (k, v) :: rest =>
      if String.eqb k key then v else dict_get_default rest key default
  end.

Definition headers_for_signal (self : ParseableConfig) (stream signal : str)
  : list (str * str) :=
  [("Authorization", auth_header self);
   ("X-P-Stream", stream);
   ("X-P-Log-Source",
    dict_get_default _LOG_SOURCE_MAP signal ("otel-" ++ signal)%string)].

Definition traces_endpoint (self : ParseableConfig) : str :=
  (url self ++ "/v1/traces")%string.

Definition logs_endpoint (self : ParseableConfig) : str :=
  (url self ++ "/v1/logs")%string.

Definition metrics_endpoint (self : ParseableConfig) : str :=
  (url self ++ "/v1/metrics")%string.

End Config.

(* ================================================================== *)
(** * The slice of [requests] used by the adapter *)
(* ================================================================== *)

Module Requests.
Import Py.

(** [requests.structures.CaseInsensitiveDict]: an ordered store from the
    lowercased key to the pair of the key as last written and its
    value. *)
Definition CaseInsensitiveDict := list (str * (str * str)).

Fixpoint store_get (store : CaseInsensitiveDict) (lkey : str)
  : option (str * str) :=
  match store with
  | [] => None
  | (k, kv) :: rest => if String.eqb k lkey then Some kv else store_get rest lkey
  end.

(** Assignment in an ordered dict: an existing key keeps its place. *)
Fixpoint store_set (store : CaseInsensitiveDict) (lkey : str) (kv : str * str)
  : CaseInsensitiveDict :=
  match store with
  | [] => [(lkey, kv)]
  | (k, old) :: rest =>
      if String.eqb k lkey then (k, kv) :: rest
      else (k, old) :: store_set rest lkey kv
  end.

(** [headers.get(key)] *)
Definition get (headers : CaseInsensitiveDict) (key : str) : option str :=
  option_map snd (store_get headers (lower key)).

(** [headers[key] = value] *)
Definition setitem (headers : CaseInsensitiveDict) (key value : str)
  : CaseInsensitiveDict :=
  store_set headers (lower key) (key, value).

(** The body of a prepared request: absent, bytes or text. *)
Inductive Body :=
| BodyNone
| BodyBytes (b : bytes)
| BodyStr (s : str).

Record PreparedRequest := {
  url : str;
  headers : CaseInsensitiveDict;
  body : Body
}.

(** Truth value of [request.body]. *)
Definition body_truthy (b : Body) : bool :=
  match b with
  | BodyNone => false
  | BodyBytes [] => false
  | BodyBytes (_ :: _) => true
  | BodyStr EmptyString => false
  | BodyStr (String _ _) => true
  end.

End Requests.

(* ================================================================== *)
(** * [exporters.py] *)
(* ================================================================== *)

Module Exporters.
Import Py Requests.

(** The value [MessageToDict] returns: a tree of mappings, lists and
    scalars. *)
Unset Elimination Schemes.
Inductive doc :=
| DNone
| DBool (b : bool)
| DInt (z : Z)
| DFloat (f : float)
| DStr (s : str)
| DList (items : list doc)
| DDict (entries : list (str * doc)).
Set Elimination Schemes.

Definition _BYTES_KEYS : list str := ["traceId"; "spanId"; "parentSpanId"].

(** [k in _BYTES_KEYS] *)
Definition in_BYTES_KEYS (k : str) : bool := existsb (String.eqb k) _BYTES_KEYS.

(** [_b64_to_hex]: both [binascii.Error] and [ValueError] derive from
    [Exception], so every decoding failure takes the [except] branch. *)
Definition _b64_to_hex (value : str) : str :=
  match Base64.b64decode value with
  | Some raw => hex raw
  | None => value
  end.

(** [_fix_bytes_fields].  The dict comprehension keeps every key, so it
    is a map over the entries in order. *)
Fixpoint _fix_bytes_fields (obj : doc) : doc :=
  match obj with
  | DDict entries =>
      DDict (map (fun kv : str * doc =>
                    let (k, v) := kv in
                    (k, if in_BYTES_KEYS k then
                          match v with
                          | DStr s => DStr (_b64_to_hex s)
                          | _ => _fix_bytes_fields v
                          end
                        else _fix_bytes_fields v))
                 entries)
  | DList items => DList (map _fix_bytes_fields items)
  | _ => obj
  end.

(** ** Navigation in a document, as Python subscripting does it *)

Inductive step :=
| Key (k : str)
| Index (i : nat).

Fixpoint dict_get (entries : list (str * doc)) (k : str) : option doc :=
  match entries with
  | [] => None
  | (k', v) :: rest => if String.eqb k' k then Some v else dict_get rest k
  end.

Definition subscript (d : doc) (s : step) : option doc :=
  match d, s with
  | DDict entries, Key k => dict_get entries k
  | DList items, Index i => nth_error items i
  | _, _ => None
  end.

Fixpoint get_path (d : doc) (p : list step) : option doc :=
  match p with
  | [] => Some d
  | s :: rest =>
      match subscript d s with
      | Some v => get_path v rest
      | None => None
      end
  end.

(** The key a path ends under, if it ends with a mapping lookup. *)
Definition ends_under_bytes_key (p : list step) : bool :=
  match last p (Index 0) with
  | Key k => in_BYTES_KEYS k
  | Index _ => false
  end.

Definition is_container (d : doc) : bool :=
  match d with
  | DList _ | DDict _ => true
  | _ => false
  end.

Definition is_str (d : doc) : bool :=
  match d with
  | DStr _ => true
  | _ => false
  end.

(** ** The adapter *)

(** A generated protobuf message class: its messages, [ParseFromString]
    ([None] is [DecodeError]) and [MessageToDict] with its
    [use_integers_for_enums] flag. *)
Record proto_class := {
  message : Type;
  ParseFromString : bytes -> option message;
  MessageToDict : message -> bool -> doc
}.

Inductive send_error :=
| DecodeError
| InvalidSchema.

(** [request.body if isinstance(request.body, bytes) else
    request.body.encode()], evaluated only on a body that is true. *)
Definition body_as_bytes (b : Body) : bytes :=
  match b with
  | BodyBytes b => b
  | BodyStr s => encode s
  | BodyNone => []
  end.

Record _ProtobufToJsonAdapter := {
  _proto_class : proto_class
}.

Section Adapter.

(** [json.dumps(d, ensure_ascii=...)] *)
Variable json_dumps : doc -> bool -> str.

(** The response type of the transport, and [HTTPAdapter.send]. *)
Variable Response : Type.
Variable super_send : PreparedRequest -> Response.

(** [_ProtobufToJsonAdapter.send]: [inl] carries what the transport
    returned for the request it was handed, [inr] an exception raised
    before the transport was reached. *)
Definition send (self : _ProtobufToJsonAdapter) (request : PreparedRequest)
  : Response + send_error :=
  if body_truthy (body request)
     && match get (headers request) "Content-Type" with
        | Some ct => String.eqb ct "application/x-protobuf"
        | None => false
        end
  then
    match ParseFromString (_proto_class self) (body_as_bytes (body request))
    with
    | None => inr DecodeError
    | Some msg =>
        let d := MessageToDict (_proto_class self) msg true in
        let d := _fix_bytes_fields d in
        let body' := encode (json_dumps d false) in
        let request := {| url := url request;
                          headers := headers request;
                          body := BodyBytes body' |} in
        let request := {| url := url request;
                          headers := setitem (headers request)
                                       "Content-Type" "application/json";
                          body := body request |} in
        let request := {| url := url request;
                          headers := setitem (headers request)
                                       "Content-Length" (str_of_nat (len body'));
                          body := body request |} in
        inl (super_send request)
    end
  else inl (super_send request).

(** ** Sessions *)

Inductive adapter :=
| HTTPAdapter
| ProtobufToJsonAdapter (a : _ProtobufToJsonAdapter).

Definition adapters_map := list (str * adapter).

Fixpoint adapters_set (m : adapters_map) (prefix : str) (a : adapter)
  : adapters_map :=
  match m with
  | [] => [(prefix, a)]
  | (k, old) :: rest =>
      if String.eqb k prefix then (k, a) :: rest
      else (k, old) :: adapters_set rest prefix a
  end.

(** [Session.mount]: register the adapter, then move every shorter
    prefix behind it, so that prefixes stay sorted by decreasing
    length. *)
Definition mount (m : adapters_map) (prefix : str) (a : adapter)
  : adapters_map :=
  let m := adapters_set m prefix a in
  let shorter (e : str * adapter) :=
    (String.length (fst e) <? String.length prefix)%nat in
  filter (fun e => negb (shorter e)) m ++ filter shorter m.

(** [requests.Session()] *)
Definition Session : adapters_map :=
  mount (mount [] "https://" HTTPAdapter) "http://" HTTPAdapter.

(** [Session.get_adapter] on ASCII URLs and prefixes: the first prefix
    the lowercased URL starts with; [None] is [InvalidSchema]. *)
Fixpoint get_adapter (m : adapters_map) (u : str) : option adapter :=
  match m with
  | [] => None
  | (prefix, a) :: rest =>
      if startswith (lower u) (lower prefix) then Some a
      else get_adapter rest u
  end.

(** The dispatch step of [Session.send]. *)
Definition session_send (m : adapters_map) (request : PreparedRequest)
  : Response + send_error :=
  match get_adapter m (url request) with
  | None => inr InvalidSchema
  | Some HTTPAdapter => inl (super_send request)
  | Some (ProtobufToJsonAdapter a) => send a request
  end.

(** [Session.get_adapter] and the dispatch step of [Session.send] on
    arbitrary text: [str_lower] stands for [str.lower()], whatever it does
    to the URL and to the prefixes.  [get_adapter] and [session_send]
    above are these at the ASCII folding [lower]. *)
Fixpoint get_adapter_by (str_lower : str -> str) (m : adapters_map) (u : str)
  : option adapter :=
  match m with
  | [] => None
  | (prefix, a) :: rest =>
      if startswith (str_lower u) (str_lower prefix) then Some a
      else get_adapter_by str_lower rest u
  end.

Definition session_send_by (str_lower : str -> str) (m : adapters_map)
           (request : PreparedRequest) : Response + send_error :=
  match get_adapter_by str_lower m (url request) with
  | None => inr InvalidSchema
  | Some HTTPAdapter => inl (super_send request)
  | Some (ProtobufToJsonAdapter a) => send a request
  end.

(** [_create_json_session] *)
Definition _create_json_session (pc : proto_class) (endpoint : str)
  : adapters_map :=
  mount Session endpoint
    (ProtobufToJsonAdapter {| _proto_class := pc |}).

(** ** Exporter factories

    An OTLP exporter is represented by the three arguments it is
    constructed with. *)

Record OTLPExporter := {
  endpoint : str;
  exporter_headers : list (str * str);
  session : adapters_map
}.

Variable ExportTraceServiceRequest : proto_class.
Variable ExportLogsServiceRequest : proto_class.
Variable ExportMetricsServiceRequest : proto_class.

Definition create_trace_exporter (config : Config.ParseableConfig)
  : OTLPExporter :=
  let session :=
    _create_json_session ExportTraceServiceRequest
      (Config.traces_endpoint config) in
  {| endpoint := Config.traces_endpoint config;
     exporter_headers :=
       Config.headers_for_signal config (Config.traces_stream config) "traces";
     session := session |}.

Definition create_log_exporter (config : Config.ParseableConfig)
  : OTLPExporter :=
  let session :=
    _create_json_session ExportLogsServiceRequest
      (Config.logs_endpoint config) in
  {| endpoint := Config.logs_endpoint config;
     exporter_headers :=
       Config.headers_for_signal config (Config.logs_stream config) "logs";
     session := session |}.

Definition create_metric_exporter (config : Config.ParseableConfig)
  : OTLPExporter :=
  let session :=
    _create_json_session ExportMetricsServiceRequest
      (Config.metrics_endpoint config) in
  {| endpoint := Config.metrics_endpoint config;
     exporter_headers :=
       Config.headers_for_signal config (Config.metrics_stream config) "metrics";
     session := session |}.

End Adapter.

End Exporters.

(* ================================================================== *)
(** * [plugin.py]: teardown *)
(* ================================================================== *)

Module Plugin.
Import Py.

(** A telemetry provider: the name of its class and what its
    [shutdown()] does, return ([None]) or raise. *)
Record Provider := {
  type_name : str;
  shutdown : option exn
}.

Record ParseablePlugin := {
  config : Config.ParseableConfig;
  _providers : list Provider
}.

(** What [_run_context] does, in order. *)
Inductive event :=
| LogInfo (msg : str)
| Yield
| CallShutdown (p : Provider)
| LogException (msg arg : str) (e : exn).

(** The [for] loop of the [finally] block: the events it performs and
    the exception that leaves it, if any. *)
Fixpoint shutdown_loop (providers : list Provider) : list event * option exn :=
  match providers with
  | [] => ([], None)
  | provider :: rest =>
      match shutdown provider with
      | None =>
          let (t, r) := shutdown_loop rest in
          (CallShutdown provider :: t, r)
      | Some e =>
          if is_Exception e then
            let (t, r) := shutdown_loop rest in
            (CallShutdown provider
               :: LogException "Error shutting down provider %s"
                    (type_name provider) e
               :: t, r)
          else ([CallShutdown provider], Some e)
      end
  end.

(** [_run_context], given how the body of the [async with] block ends
    ([None]: normally).  An exception leaving the [finally] block
    replaces the one of the body; otherwise the body's outcome stands. *)
Definition _run_context (self : ParseablePlugin) (body : option exn)
  : list event * option exn :=
  let (t, r) := shutdown_loop (_providers self) in
  ([LogInfo "ParseablePlugin: starting telemetry pipeline"; Yield;
    LogInfo "ParseablePlugin: shutting down telemetry pipeline"] ++ t,
   match r with
   | Some e => Some e
   | None => body
   end).

(** The providers whose [shutdown()] was invoked, in order. *)
Fixpoint shutdown_calls (t : list event) : list Provider :=
  match t with
  | [] => []
  | CallShutdown p :: rest => p :: shutdown_calls rest
  | _ :: rest => shutdown_calls rest
  end.

(** The exceptions that were logged, with the class name they were
    logged under. *)
Fixpoint logged (t : list event) : list (str * exn) :=
  match t with
  | [] => []
  | LogException _ arg e :: rest => (arg, e) :: logged rest
  | _ :: rest => logged rest
  end.

(** The providers that raise, with their class name. *)
Fixpoint failures (providers : list Provider) : list (str * exn) :=
  match providers with
  | [] => []
  | p :: rest =>
      match shutdown p with
      | Some e => (type_name p, e) :: failures rest
      | None => failures rest
      end
  end.

End Plugin.

(* ================================================================== *)
(** * [metrics_interceptor.py] *)
(* ================================================================== *)

Module MetricsInterceptor.
Import Py.

Record Meter := {
  meter_name : str
}.

(** [temporalio.activity.info()] *)
Record Info := {
  activity_type : str;
  workflow_type : str;
  task_queue : str;
  workflow_namespace : str
}.

Definition attributes := list (str * str).

(** [set_meter]: the new value of the module-level [_meter]. *)
Definition set_meter (meter : Meter) (_meter : option Meter) : option Meter :=
  Some meter.

(** What [execute_activity] does, in order. *)
Inductive event :=
| CreateCounter (name description : str)
| CreateHistogram (name unit description : str)
| CounterAdd (name : str) (amount : Z) (attrs : attributes)
| HistogramRecord (name : str) (value : float) (attrs : attributes)
| NextExecuteActivity.

(** The attributes every instrument is fed with. *)
Definition attrs_of (info : Info) : attributes :=
  [("activity_type", activity_type info);
   ("workflow_type", workflow_type info);
   ("task_queue", task_queue info);
   ("namespace", workflow_namespace info)].

(** The four [create_counter] / [create_histogram] calls. *)
Definition create_instruments : list event :=
  [CreateCounter "temporal.activity.started" "Activities started";
   CreateCounter "temporal.activity.completed"
     "Activities completed successfully";
   CreateCounter "temporal.activity.failed"
     "Activities that raised an exception";
   CreateHistogram "temporal.activity.duration" "s"
     "Activity execution duration in seconds"].

(** [_MetricsActivityInterceptor.execute_activity].  [_meter] is the
    module-level meter, [next] how the inner
    [self.next.execute_activity(input)] ends, [t0] and [t1] the two
    readings of [time.monotonic()].  The result is what the method did,
    in order, and how it ended. *)
Definition execute_activity {A : Type} (_meter : option Meter) (info : Info)
           (next : outcome A) (t0 t1 : float) : list event * outcome A :=
  match _meter with
  | None => ([NextExecuteActivity], next)
  | Some _ =>
      let attrs := attrs_of info in
      let started := CounterAdd "temporal.activity.started" 1 attrs in
      let completed := CounterAdd "temporal.activity.completed" 1 attrs in
      let failed := CounterAdd "temporal.activity.failed" 1 attrs in
      let duration :=
        HistogramRecord "temporal.activity.duration" (PrimFloat.sub t1 t0) attrs in
      let try_ :=
        match next with
        | Returns result => [NextExecuteActivity; completed]
        | Raises e =>
            if is_Exception e then [NextExecuteActivity; failed]
            else [NextExecuteActivity]
        end in
      (create_instruments ++ [started] ++ try_ ++ [duration], next)
  end.

(** The increments of the counter [name], in order. *)
Fixpoint counter_adds (name : str) (t : list event) : list (Z * attributes) :=
  match t with
  | [] => []
  | CounterAdd n amount attrs :: rest =>
      if String.eqb n name then (amount, attrs) :: counter_adds name rest
      else counter_adds name rest
  | _ :: rest => counter_adds name rest
  end.

(** The measurements recorded on the histogram [name]. *)
Fixpoint histogram_records (name : str) (t : list event)
  : list (float * attributes) :=
  match t with
  | [] => []
  | HistogramRecord n value attrs :: rest =>
      if String.eqb n name then (value, attrs) :: histogram_records name rest
      else histogram_records name rest
  | _ :: rest => histogram_records name rest
  end.

End MetricsInterceptor.


(* ================================================================== *)
(** * Sample inputs *)
(* ================================================================== *)

Module Samples.
Import Py Requests Exporters.

(** A message class with one field, [bytes trace_id = 1].  On the wire a
    message is empty (field unset) or the tag [0x0a], the length and the
    bytes; as a dict an unset field is left out. *)
Definition SpanId : proto_class := {|
  message := bytes;
  ParseFromString := fun data =>
    match data with
    | [] => Some []
    | tag :: n :: rest =>
        if Byte.eqb tag x0a && (to_N n =? N.of_nat (List.length rest))%N
           && (to_N n <? 128)%N
        then Some rest else None
    | _ => None
    end;
  MessageToDict := fun msg _ =>
    match msg with
    | [] => DDict []
    | _ => DDict [("traceId", DStr (decode (Base64.b64encode msg)))]
    end
|}.

Definition dquote : ascii := "034"%char.

Definition quote (s : str) : str := String dquote (s ++ String dquote EmptyString)%string.

(** [json.dumps] on documents without floats and without characters
    that need escaping (a float is written as [null]). *)
Fixpoint dumps (d : doc) : str :=
  match d with
  | DNone => "null"
  | DBool true => "true"
  | DBool false => "false"
  | DInt z => NilZero.string_of_int (Z.to_int z)
  | DFloat _ => "null"
  | DStr s => quote s
  | DList items => ("[" ++ String.concat ", " (map dumps items) ++ "]")%string
  | DDict entries =>
      ("{"
       ++ String.concat ", "
            (map (fun kv : str * doc =>
                    (quote (fst kv) ++ ": " ++ dumps (snd kv))%string)
               entries)
       ++ "}")%string
  end.

Definition json_dumps (d : doc) (ensure_ascii : bool) : str := dumps d.

(** Sixteen bytes [de ad be ef ...]. *)
Definition deadbeef : bytes :=
  [xde; xad; xbe; xef; xde; xad; xbe; xef; xde; xad; xbe; xef; xde; xad; xbe; xef].

(** A trace export with one span, as [MessageToDict] returns it; the
    span identifier is not base64. *)
Definition trace_doc : doc :=
  DDict
    [("resourceSpans",
      DList
        [DDict
           [("scopeSpans",
             DList
               [DDict
                  [("spans",
                    DList
                      [DDict
                         [("traceId", DStr "3q2+796tvu/erb7v3q2+7w==");
                          ("spanId", DStr "abc");
                          ("name", DStr "greet");
                          ("kind", DInt 1)]])]])]])].

Definition span_path : list step :=
  [Key "resourceSpans"; Index 0; Key "scopeSpans"; Index 0; Key "spans"; Index 0].

Definition endpoint : str := "http://localhost:8000/v1/traces".

(** A protobuf export request for [deadbeef]. *)
Definition protobuf_request : PreparedRequest := {|
  url := endpoint;
  headers := setitem (setitem [] "Content-Type" "application/x-protobuf")
               "Content-Length" "18";
  body := BodyBytes (x0a :: x10 :: deadbeef)
|}.

(** The same request with an empty body: the encoding of the empty
    message. *)
Definition empty_request : PreparedRequest := {|
  url := endpoint;
  headers := setitem (setitem [] "Content-Type" "application/x-protobuf")
               "Content-Length" "0";
  body := BodyBytes []
|}.

(** A request whose body is cut short: the announced sixteen bytes are
    missing. *)
Definition malformed_request : PreparedRequest := {|
  url := endpoint;
  headers := setitem (setitem [] "Content-Type" "application/x-protobuf")
               "Content-Length" "2";
  body := BodyBytes [x0a; x10]
|}.

(** A JSON request to the same endpoint, and a protobuf request to
    another host. *)
Definition json_request : PreparedRequest := {|
  url := endpoint;
  headers := setitem [] "Content-Type" "application/json";
  body := BodyBytes (encode "{}")
|}.

Definition other_request : PreparedRequest := {|
  url := "http://example.com/v1/traces";
  headers := setitem [] "Content-Type" "application/x-protobuf";
  body := BodyBytes (x0a :: x10 :: deadbeef)
|}.

Definition KeyboardInterrupt : exn :=
  {| exn_type := "KeyboardInterrupt"; is_Exception := false |}.

Definition CancelledError : exn :=
  {| exn_type := "CancelledError"; is_Exception := false |}.

Definition RuntimeError : exn :=
  {| exn_type := "RuntimeError"; is_Exception := true |}.

Definition tracer_provider : Plugin.Provider :=
  {| Plugin.type_name := "TracerProvider"; Plugin.shutdown := Some RuntimeError |}.

Definition logger_provider : Plugin.Provider :=
  {| Plugin.type_name := "LoggerProvider"; Plugin.shutdown := None |}.

Definition meter_provider : Plugin.Provider :=
  {| Plugin.type_name := "MeterProvider"; Plugin.shutdown := Some RuntimeError |}.

Definition plugin : Plugin.ParseablePlugin :=
  {| Plugin.config := Config.default_config;
     Plugin._providers := [tracer_provider; logger_provider; meter_provider] |}.

Definition meter : MetricsInterceptor.Meter :=
  {| MetricsInterceptor.meter_name := "temporal-parseable" |}.

Definition info : MetricsInterceptor.Info :=
  {| MetricsInterceptor.activity_type := "greet";
     MetricsInterceptor.workflow_type := "GreetingWorkflow";
     MetricsInterceptor.task_queue := "demo";
     MetricsInterceptor.workflow_namespace := "default" |}.

End Samples.

(* ================================================================== *)
(** * Auxiliary definitions for the proofs *)
(* ================================================================== *)

Module Aux.
Import Py Base64.

(** Every byte, in increasing order. *)
Definition all_bytes : list byte := map (fun n => u8 (N.of_nat n)) (seq 0 256).

(** A six-bit value whose character is not the pad and maps back to it. *)
Definition valid_sextet (n : N) : bool :=
  negb (Byte.eqb (b2a n) BASE64_PAD)
  && match table_a2b_base64 (b2a n) with
     | Some v => v =? n
     | None => false
     end.

(** The first two characters of a quantum give back its first byte and
    carry the high half of the second. *)
Definition quantum_head_ok (a b : byte) : bool :=
  valid_sextet (sextet0 a) && valid_sextet (sextet1 a b)
  && Byte.eqb (u8 (N.lor (N.shiftl (sextet0 a) 2) (N.shiftr (sextet1 a b) 4))) a
  && (N.land (sextet1 a b) 15 =? N.shiftr (to_N b) 4).

(** The last two characters of a quantum give back its second and third
    bytes. *)
Definition quantum_tail_ok (b c : byte) : bool :=
  valid_sextet (sextet2 b c) && valid_sextet (sextet3 c)
  && Byte.eqb
       (u8 (N.lor (N.shiftl (N.shiftr (to_N b) 4) 4) (N.shiftr (sextet2 b c) 2))) b
  && Byte.eqb (u8 (N.lor (N.shiftl (N.land (sextet2 b c) 3) 6) (sextet3 c))) c.

(** The text is the base64 encoding of some byte sequence. *)
Definition valid_base64 (s : str) : Prop :=
  exists raw : bytes, s = decode (b64encode raw).

(** A character of the alphabet, and their number in a text. *)
Definition is_data_char (c : byte) : bool :=
  match table_a2b_base64 c with
  | Some _ => true
  | None => false
  end.

Definition data_chars (data : bytes) : nat :=
  List.length (filter is_data_char data).

(** [d[k] = v] on an insertion-ordered dict, and the dict a comprehension
    [{k: f(k, v) for k, v in items}] builds by successive assignments. *)
Fixpoint dict_setitem (entries : list (str * Exporters.doc)) (k : str)
         (v : Exporters.doc) : list (str * Exporters.doc) :=
  match entries with
  | [] => [(k, v)]
  | (k', v') :: rest =>
      if String.eqb k' k then (k', v) :: rest
      else (k', v') :: dict_setitem rest k v
  end.

Definition dict_comprehension (f : str -> Exporters.doc -> Exporters.doc)
           (items : list (str * Exporters.doc)) : list (str * Exporters.doc) :=
  fold_left (fun acc kv => dict_setitem acc (fst kv) (f (fst kv) (snd kv)))
    items [].

(** What the dict comprehension of [_fix_bytes_fields] stores under the
    key [k] for the value [v]. *)
Definition fix_entry (k : str) (v : Exporters.doc) : Exporters.doc :=
  if Exporters.in_BYTES_KEYS k then
    match v with
    | Exporters.DStr s => Exporters.DStr (Exporters._b64_to_hex s)
    | _ => Exporters._fix_bytes_fields v
    end
  else Exporters._fix_bytes_fields v.

(** What the fix-up puts in the place of the value [v] found at the end
    of the path [p]. *)
Definition fix_at (p : list Exporters.step) (v : Exporters.doc) : Exporters.doc :=
  match last p (Exporters.Index 0) with
  | Exporters.Key k => fix_entry k v
  | Exporters.Index _ => Exporters._fix_bytes_fields v
  end.

End Aux.

(* ================================================================== *)
(** * [otel_setup.py] and [logging_handler.py] *)
(* ================================================================== *)

Module OtelSetup.
Import Py.

(** [opentelemetry.sdk.resources.SERVICE_NAME] *)
Definition SERVICE_NAME : str := "service.name".

(** The three SDK provider classes. *)
Inductive provider_class :=
| TracerProvider
| LoggerProvider
| MeterProvider.

(** [type(provider).__name__] *)
Definition class_name (c : provider_class) : str :=
  match c with
  | TracerProvider => "TracerProvider"
  | LoggerProvider => "LoggerProvider"
  | MeterProvider => "MeterProvider"
  end.

(** What a provider exports through, by the arguments it is built from. *)
Inductive processor :=
| BatchSpanProcessor (exporter : Exporters.OTLPExporter)
| BatchLogRecordProcessor (exporter : Exporters.OTLPExporter)
| PeriodicExportingMetricReader (exporter : Exporters.OTLPExporter)
    (export_interval_millis : Z).

Definition exporter_of (p : processor) : Exporters.OTLPExporter :=
  match p with
  | BatchSpanProcessor e => e
  | BatchLogRecordProcessor e => e
  | PeriodicExportingMetricReader e _ => e
  end.

(** An SDK provider: its class, the attributes its resource was created
    from, and its processors or readers in the order they were added. *)
Record SdkProvider := {
  provider_class_of : provider_class;
  resource : list (str * str);
  processors : list processor
}.

(** [logging.NOTSET] and [logging.DEBUG] *)
Definition NOTSET : Z := 0.
Definition DEBUG : Z := 10.

(** The SDK's [LoggingHandler]: the provider it forwards to and its
    level. *)
Record LoggingHandler := {
  handler_provider : SdkProvider;
  level : Z
}.

(** The process-wide state the plugin touches: the global tracer and
    logger providers of the OpenTelemetry API, the handlers of the root
    logger, and the module-level meter of [metrics_interceptor]. *)
Record Globals := {
  tracer_provider : option SdkProvider;
  logger_provider : option SdkProvider;
  root_handlers : list LoggingHandler;
  _meter : option MetricsInterceptor.Meter
}.

(** The API's global providers can be set once; a later call is ignored
    (with a warning). *)
Definition set_once {A : Type} (current : option A) (new : A) : option A :=
  match current with
  | Some old => Some old
  | None => Some new
  end.

Section Setup.

Variable ExportTraceServiceRequest : Exporters.proto_class.
Variable ExportLogsServiceRequest : Exporters.proto_class.
Variable ExportMetricsServiceRequest : Exporters.proto_class.

(** [_build_resource]: the attributes handed to [Resource.create]. *)
Definition _build_resource (config : Config.ParseableConfig) : list (str * str) :=
  [(SERVICE_NAME, Config.service_name config)].

(** [setup_tracer_provider]: the provider, and the globals after
    [trace.set_tracer_provider]. *)
Definition setup_tracer_provider (config : Config.ParseableConfig) (g : Globals)
  : SdkProvider * Globals :=
  let resource := _build_resource config in
  let provider := {| provider_class_of := TracerProvider;
                     resource := resource;
                     processors := [] |} in
  let exporter := Exporters.create_trace_exporter ExportTraceServiceRequest config in
  let provider := {| provider_class_of := provider_class_of provider;
                     resource := OtelSetup.resource provider;
                     processors := processors provider ++ [BatchSpanProcessor exporter] |} in
  (provider,
   {| tracer_provider := set_once (tracer_provider g) provider;
      logger_provider := logger_provider g;
      root_handlers := root_handlers g;
      _meter := _meter g |}).

(** [setup_logger_provider] *)
Definition setup_logger_provider (config : Config.ParseableConfig) : SdkProvider :=
  let resource := _build_resource config in
  let exporter := Exporters.create_log_exporter ExportLogsServiceRequest config in
  let provider := {| provider_class_of := LoggerProvider;
                     resource := resource;
                     processors := [] |} in
  {| provider_class_of := provider_class_of provider;
     resource := OtelSetup.resource provider;
     processors := processors provider ++ [BatchLogRecordProcessor exporter] |}.

(** [setup_meter_provider] *)
Definition setup_meter_provider (config : Config.ParseableConfig) : SdkProvider :=
  let resource := _build_resource config in
  let exporter := Exporters.create_metric_exporter ExportMetricsServiceRequest config in
  let reader := PeriodicExportingMetricReader exporter 10000 in
  {| provider_class_of := MeterProvider;
     resource := resource;
     processors := [reader] |}.

End Setup.

(** [create_otel_logging_handler]: the handler, and the globals after
    [set_logger_provider]. *)
Definition create_otel_logging_handler (logger_provider_ : SdkProvider) (g : Globals)
  : LoggingHandler * Globals :=
  ({| handler_provider := logger_provider_; level := NOTSET |},
   {| tracer_provider := tracer_provider g;
      logger_provider := set_once (logger_provider g) logger_provider_;
      root_handlers := root_handlers g;
      _meter := _meter g |}).

End OtelSetup.

(* ================================================================== *)
(** * [plugin.py]: construction and runtime *)
(* ================================================================== *)

Module PluginInit.
Import Py OtelSetup.

Inductive interceptor :=
| TracingInterceptor
| MetricsInterceptor.

(** The arguments [SimplePlugin.__init__] receives. *)
Record SimplePlugin := {
  name : str;
  client_interceptors : option (list interceptor);
  worker_interceptors : option (list interceptor)
}.

(** A constructed plugin: [self.config], [self._providers] and the
    arguments of the base class. *)
Record Instance := {
  config : Config.ParseableConfig;
  _providers : list SdkProvider;
  base : SimplePlugin
}.

(** [l or None] *)
Definition or_None {A : Type} (l : list A) : option (list A) :=
  match l with
  | [] => None
  | _ :: _ => Some l
  end.

(** [[x] if x else []] *)
Definition list_if {A : Type} (x : option A) : list A :=
  match x with
  | Some v => [v]
  | None => []
  end.

Section Init.

Variable ExportTraceServiceRequest : Exporters.proto_class.
Variable ExportLogsServiceRequest : Exporters.proto_class.
Variable ExportMetricsServiceRequest : Exporters.proto_class.

(** [ParseablePlugin.__init__]: the constructed plugin, the globals
    afterwards, and the [logger.info] records (format and argument) in
    order.  [None] for [config] is the default argument. *)
Definition __init__ (config : option Config.ParseableConfig) (g : Globals)
  : Instance * Globals * list (str * str) :=
  let config :=
    match config with
    | Some c => c
    | None => Config.default_config
    end in
  let _providers : list SdkProvider := [] in
  let log : list (str * str) := [] in
  let '(_providers, tracing_interceptor, g, log) :=
    if Config.enable_traces config then
      let (tracer_provider, g) :=
        setup_tracer_provider ExportTraceServiceRequest config g in
      (_providers ++ [tracer_provider], Some TracingInterceptor, g,
       log ++ [("Traces enabled → %s", Config.traces_stream config)])
    else (_providers, None, g, log) in
  let '(_providers, g, log) :=
    if Config.enable_logs config then
      let logger_provider := setup_logger_provider ExportLogsServiceRequest config in
      let _providers := _providers ++ [logger_provider] in
      let (handler, g) := create_otel_logging_handler logger_provider g in
      let handler := {| handler_provider := handler_provider handler;
                        level := DEBUG |} in
      let g := {| tracer_provider := tracer_provider g;
                  logger_provider := OtelSetup.logger_provider g;
                  root_handlers := root_handlers g ++ [handler];
                  _meter := _meter g |} in
      (_providers, g, log ++ [("Logs enabled → %s", Config.logs_stream config)])
    else (_providers, g, log) in
  let '(_providers, metrics_interceptor, g, log) :=
    if Config.enable_metrics config then
      let meter_provider := setup_meter_provider ExportMetricsServiceRequest config in
      let _providers := _providers ++ [meter_provider] in
      let meter := {| MetricsInterceptor.meter_name := "temporal-parseable" |} in
      let g := {| tracer_provider := tracer_provider g;
                  logger_provider := OtelSetup.logger_provider g;
                  root_handlers := root_handlers g;
                  _meter := MetricsInterceptor.set_meter meter (_meter g) |} in
      (_providers, Some MetricsInterceptor, g,
       log ++ [("Metrics enabled → %s", Config.metrics_stream config)])
    else (_providers, None, g, log) in
  let client_interceptors := list_if tracing_interceptor in
  let worker_interceptors := list_if metrics_interceptor in
  ({| config := config;
      _providers := _providers;
      base := {| name := "temporal-parseable";
                 client_interceptors := or_None client_interceptors;
                 worker_interceptors := or_None worker_interceptors |} |},
   g, log).

End Init.

(** [OpenTelemetryConfig], [TelemetryConfig] and [Runtime] of
    [temporalio.runtime], by their arguments. *)
Record OpenTelemetryConfig := {
  otel_url : str;
  otel_headers : list (str * str);
  http : bool
}.

Record TelemetryConfig := {
  metrics : OpenTelemetryConfig;
  global_tags : list (str * str)
}.

Inductive Runtime :=
| Runtime_default
| Runtime_with (telemetry : TelemetryConfig).

(** [create_runtime] *)
Definition create_runtime (self : Instance) : Runtime :=
  if negb (Config.enable_metrics (config self)) then Runtime_default
  else
    Runtime_with
      {| metrics :=
           {| otel_url := Config.metrics_endpoint (config self);
              otel_headers :=
                Config.headers_for_signal (config self)
                  (Config.metrics_stream (config self)) "metrics";
              http := true |};
         global_tags := [("service.name", Config.service_name (config self))] |}.

(** The plugin as the teardown sees it: each provider with the name of
    its class and what its [shutdown()] does. *)
Definition for_teardown (shutdown_of : SdkProvider -> option exn) (self : Instance)
  : Plugin.ParseablePlugin :=
  {| Plugin.config := config self;
     Plugin._providers :=
       map (fun p => {| Plugin.type_name := class_name (provider_class_of p);
                        Plugin.shutdown := shutdown_of p |})
         (_providers self) |}.

End PluginInit.

(* ================================================================== *)
(** * Further auxiliary definitions *)
(* ================================================================== *)

Module Views.
Import Py Exporters.

(** The three signals, their names, and per signal the endpoint and the
    stream of a profile. *)
Inductive signal :=
| Traces
| Logs
| Metrics.

Definition signal_name (s : signal) : str :=
  match s with
  | Traces => "traces"
  | Logs => "logs"
  | Metrics => "metrics"
  end.

Definition endpoint_for (c : Config.ParseableConfig) (s : signal) : str :=
  match s with
  | Traces => Config.traces_endpoint c
  | Logs => Config.logs_endpoint c
  | Metrics => Config.metrics_endpoint c
  end.

Definition stream_for (c : Config.ParseableConfig) (s : signal) : str :=
  match s with
  | Traces => Config.traces_stream c
  | Logs => Config.logs_stream c
  | Metrics => Config.metrics_stream c
  end.

Definition enabled (c : Config.ParseableConfig) (s : signal) : bool :=
  match s with
  | Traces => Config.enable_traces c
  | Logs => Config.enable_logs c
  | Metrics => Config.enable_metrics c
  end.

(** The exporter factory of a signal, given the message class of each. *)
Definition exporter_for (pc : signal -> proto_class) (c : Config.ParseableConfig)
           (s : signal) : OTLPExporter :=
  match s with
  | Traces => create_trace_exporter (pc Traces) c
  | Logs => create_log_exporter (pc Logs) c
  | Metrics => create_metric_exporter (pc Metrics) c
  end.

Definition signal_of (c : OtelSetup.provider_class) : signal :=
  match c with
  | OtelSetup.TracerProvider => Traces
  | OtelSetup.LoggerProvider => Logs
  | OtelSetup.MeterProvider => Metrics
  end.

(** Every identifier string of the document is left as it is by
    [_b64_to_hex]. *)
Fixpoint identifiers_stable (d : doc) : bool :=
  match d with
  | DDict entries =>
      forallb (fun kv : str * doc =>
                 let (k, v) := kv in
                 if in_BYTES_KEYS k then
                   match v with
                   | DStr s => String.eqb (_b64_to_hex s) s
                   | _ => identifiers_stable v
                   end
                 else identifiers_stable v)
        entries
  | DList items => forallb identifiers_stable items
  | _ => true
  end.

(** The keys of every mapping of the document are pairwise distinct. *)
Unset Elimination Schemes.
Inductive distinct_keys : doc -> Prop :=
| distinct_scalar (d : doc) : is_container d = false -> distinct_keys d
| distinct_list (items : list doc) :
    Forall distinct_keys items -> distinct_keys (DList items)
| distinct_dict (entries : list (str * doc)) :
    NoDup (map fst entries) ->
    Forall (fun kv => distinct_keys (snd kv)) entries ->
    distinct_keys (DDict entries).
Set Elimination Schemes.

(** [_fix_bytes_fields] with each mapping built as the comprehension
    builds it, one assignment after the other. *)
Fixpoint fix_by_assignment (obj : doc) : doc :=
  match obj with
  | DDict entries =>
      DDict (fold_left
               (fun acc (kv : str * doc) =>
                  let (k, v) := kv in
                  Aux.dict_setitem acc k
                    (if in_BYTES_KEYS k then
                       match v with
                       | DStr s => DStr (_b64_to_hex s)
                       | _ => fix_by_assignment v
                       end
                     else fix_by_assignment v))
               entries [])
  | DList items => DList (map fix_by_assignment items)
  | _ => obj
  end.

(** How often the inner execution was invoked. *)
Definition next_calls (t : list MetricsInterceptor.event) : nat :=
  List.length
    (filter (fun e => match e with
                      | MetricsInterceptor.NextExecuteActivity => true
                      | _ => false
                      end) t).

(** A header store as [CaseInsensitiveDict] keeps it: one entry per
    lowercased name, filed under the lowercase of the name it holds. *)
Definition headers_ok (h : Requests.CaseInsensitiveDict) : Prop :=
  NoDup (map fst h) /\ Forall (fun e => fst e = lower (fst (snd e))) h.

(** Bytes already written for the current group at position [quad_pos]. *)
Definition written_in_group (quad_pos : N) : nat := Nat.pred (N.to_nat quad_pos).

(** Two bytes with the same two hexadecimal digits are the same byte. *)
Definition hex_pair_ok (x y : byte) : bool :=
  implb
    (Ascii.eqb (hexdigit (N.shiftr (to_N x) 4)) (hexdigit (N.shiftr (to_N y) 4))
     && Ascii.eqb (hexdigit (N.land (to_N x) 15)) (hexdigit (N.land (to_N y) 15)))
    (Byte.eqb x y).

(** A hexadecimal digit is an ASCII character of the base64 alphabet. *)
Definition hexdigit_ok (c : ascii) : bool :=
  is_ascii_char c
  && negb (Byte.eqb (byte_of_ascii c) Base64.BASE64_PAD)
  && Aux.is_data_char (byte_of_ascii c).

End Views.

(* ================================================================== *)
(** * More sample inputs *)
(* ================================================================== *)

Module MoreSamples.
Import Py Requests Exporters.

(** One message class for the three signals. *)
Definition pcs : Views.signal -> proto_class := fun _ => Samples.SpanId.

(** A process in which nothing has been set yet. *)
Definition fresh : OtelSetup.Globals :=
  {| OtelSetup.tracer_provider := None;
     OtelSetup.logger_provider := None;
     OtelSetup.root_handlers := [];
     OtelSetup._meter := None |}.

(** The default profile with other credentials. *)
Definition with_credentials (u p : str) : Config.ParseableConfig :=
  {| Config.url := "http://localhost:8000";
     Config.username := u;
     Config.password := p;
     Config.traces_stream := "temporal-traces";
     Config.logs_stream := "temporal-logs";
     Config.metrics_stream := "temporal-metrics";
     Config.temporal_host := "localhost:7233";
     Config.temporal_namespace := "default";
     Config.service_name := "temporal-worker";
     Config.enable_traces := true;
     Config.enable_logs := true;
     Config.enable_metrics := true |}.

(** A span with a valid trace identifier and a rejected span
    identifier, and a record without identifiers. *)
Definition span_doc : doc :=
  DDict [("traceId", DStr "3q2+796tvu/erb7v3q2+7w=="); ("spanId", DStr "abc")].

Definition record_doc : doc :=
  DDict [("body", DStr "YQ==");
         ("attributes", DList [DDict [("key", DStr "traceId"); ("value", DInt 7)]])].

(** A logger provider interrupted while it shuts down. *)
Definition interrupted_provider : Plugin.Provider :=
  {| Plugin.type_name := "LoggerProvider";
     Plugin.shutdown := Some Samples.KeyboardInterrupt |}.

(** Shutting down the tracer provider fails, the others succeed. *)
Definition tracer_fails (p : OtelSetup.SdkProvider) : option exn :=
  match OtelSetup.provider_class_of p with
  | OtelSetup.TracerProvider => Some Samples.RuntimeError
  | _ => None
  end.

(** A protobuf request to the logs endpoint of the default profile. *)
Definition logs_request : PreparedRequest := {|
  url := "http://localhost:8000/v1/logs";
  headers := setitem [] "Content-Type" "application/x-protobuf";
  body := BodyBytes (x0a :: x10 :: Samples.deadbeef)
|}.

End MoreSamples.

(* ================================================================== *)
(** * Facts about bytes and base64 *)
(* ================================================================== *)

Section Base64Facts.
Import Py Base64 Aux.

Lemma u8_to_N (b : byte) : u8 (to_N b) = b.
Proof.
  unfold u8.
  assert (H : N.land (to_N b) 255 = to_N b).
  { change 255 with (N.ones 8). rewrite N.land_ones.
    apply N.mod_small. pose proof (to_N_bounded b). simpl. lia. }
  rewrite H, of_to_N. reflexivity.
Qed.

Lemma all_bytes_complete (b : byte) : In b all_bytes.
Proof.
  unfold all_bytes. apply in_map_iff.
  exists (N.to_nat (to_N b)). split.
  - rewrite N2Nat.id. apply u8_to_N.
  - apply in_seq. pose proof (to_N_bounded b). lia.
Qed.

Lemma forall_bytes (P : byte -> bool) :
  forallb P all_bytes = true -> forall b, P b = true.
Proof.
  intros H b. rewrite forallb_forall in H. apply H, all_bytes_complete.
Qed.

Lemma forall_bytes2 (P : byte -> byte -> bool) :
  forallb (fun a => forallb (P a) all_bytes) all_bytes = true ->
  forall a b, P a b = true.
Proof.
  intros H a b.
  apply (forall_bytes (P a)). apply (forall_bytes _ H a).
Qed.

Lemma quantum_head_ok_all (a b : byte) : quantum_head_ok a b = true.
Proof. revert a b. apply forall_bytes2. vm_compute. reflexivity. Qed.

Lemma quantum_tail_ok_all (b c : byte) : quantum_tail_ok b c = true.
Proof. revert b c. apply forall_bytes2. vm_compute. reflexivity. Qed.

Lemma valid_sextet_spec (n : N) :
  valid_sextet n = true ->
  Byte.eqb (b2a n) BASE64_PAD = false /\ table_a2b_base64 (b2a n) = Some n.
Proof.
  unfold valid_sextet. intros [H1 H2]%andb_prop. split.
  - now apply negb_true_iff.
  - destruct (table_a2b_base64 (b2a n)) as [v|]; [|discriminate].
    apply N.eqb_eq in H2. now subst.
Qed.

(** One data character, at each of the four positions of a group. *)
Section Steps.
Variables (n : N) (rest : bytes) (leftchar pads : N) (out : bytes).
Hypothesis Hn : valid_sextet n = true.

Lemma a2b_loop_pos0 :
  a2b_loop (b2a n :: rest) 0 leftchar pads out = a2b_loop rest 1 n 0 out.
Proof.
  destruct (valid_sextet_spec n Hn) as [H1 H2].
  cbn [a2b_loop]. rewrite H1, H2. reflexivity.
Qed.

Lemma a2b_loop_pos1 :
  a2b_loop (b2a n :: rest) 1 leftchar pads out =
  a2b_loop rest 2 (N.land n 15) 0
    (out ++ [u8 (N.lor (N.shiftl leftchar 2) (N.shiftr n 4))]).
Proof.
  destruct (valid_sextet_spec n Hn) as [H1 H2].
  cbn [a2b_loop]. rewrite H1, H2. reflexivity.
Qed.

Lemma a2b_loop_pos2 :
  a2b_loop (b2a n :: rest) 2 leftchar pads out =
  a2b_loop rest 3 (N.land n 3) 0
    (out ++ [u8 (N.lor (N.shiftl leftchar 4) (N.shiftr n 2))]).
Proof.
  destruct (valid_sextet_spec n Hn) as [H1 H2].
  cbn [a2b_loop]. rewrite H1, H2. reflexivity.
Qed.

Lemma a2b_loop_pos3 :
  a2b_loop (b2a n :: rest) 3 leftchar pads out =
  a2b_loop rest 0 0 0 (out ++ [u8 (N.lor (N.shiftl leftchar 6) n)]).
Proof.
  destruct (valid_sextet_spec n Hn) as [H1 H2].
  cbn [a2b_loop]. rewrite H1, H2. reflexivity.
Qed.
End Steps.

(** The first two characters of a group write its first byte. *)
Lemma a2b_loop_head (a b : byte) (rest : bytes) (out : bytes) :
  a2b_loop (b2a (sextet0 a) :: b2a (sextet1 a b) :: rest) 0 0 0 out =
  a2b_loop rest 2 (N.shiftr (to_N b) 4) 0 (out ++ [a]).
Proof.
  pose proof (quantum_head_ok_all a b) as H. unfold quantum_head_ok in H.
  apply andb_prop in H as [H H4]. apply andb_prop in H as [H H3].
  apply andb_prop in H as [H1 H2].
  rewrite a2b_loop_pos0 by assumption.
  rewrite a2b_loop_pos1 by assumption.
  apply byte_dec_bl in H3. apply N.eqb_eq in H4.
  rewrite H3, H4. reflexivity.
Qed.

(** The last two characters of a group write its other two bytes. *)
Lemma a2b_loop_tail (b c : byte) (rest : bytes) (out : bytes) :
  a2b_loop (b2a (sextet2 b c) :: b2a (sextet3 c) :: rest)
    2 (N.shiftr (to_N b) 4) 0 out =
  a2b_loop rest 0 0 0 (out ++ [b; c]).
Proof.
  pose proof (quantum_tail_ok_all b c) as H. unfold quantum_tail_ok in H.
  apply andb_prop in H as [H H4]. apply andb_prop in H as [H H3].
  apply andb_prop in H as [H1 H2].
  rewrite a2b_loop_pos2 by assumption.
  rewrite a2b_loop_pos3 by assumption.
  apply byte_dec_bl in H3. apply byte_dec_bl in H4.
  rewrite H3, H4. rewrite <- app_assoc. reflexivity.
Qed.

(** The third character of a group alone writes its second byte. *)
Lemma a2b_loop_third (b c : byte) (rest : bytes) (out : bytes) :
  a2b_loop (b2a (sextet2 b c) :: rest) 2 (N.shiftr (to_N b) 4) 0 out =
  a2b_loop rest 3 (N.land (sextet2 b c) 3) 0 (out ++ [b]).
Proof.
  pose proof (quantum_tail_ok_all b c) as H. unfold quantum_tail_ok in H.
  apply andb_prop in H as [H H4]. apply andb_prop in H as [H H3].
  apply andb_prop in H as [H1 H2].
  rewrite a2b_loop_pos2 by assumption.
  apply byte_dec_bl in H3. rewrite H3. reflexivity.
Qed.

(** Lists, three elements at a time. *)
Lemma list_ind3 {A : Type} (P : list A -> Prop) :
  P [] ->
  (forall a, P [a]) ->
  (forall a b, P [a; b]) ->
  (forall a b c rest, P rest -> P (a :: b :: c :: rest)) ->
  forall l, P l.
Proof.
  intros H0 H1 H2 H3.
  fix IH 1. intros [|a [|b [|c rest]]].
  - exact H0.
  - apply H1.
  - apply H2.
  - apply H3, IH.
Qed.

(** Decoding an encoding from a group boundary appends the encoded
    bytes. *)
Lemma a2b_loop_b2a_base64 (data : bytes) :
  forall out, a2b_loop (b2a_base64 data) 0 0 0 out = Some (out ++ data).
Proof.
  induction data as [|a|a b|a b c rest IH] using list_ind3; intros out.
  - cbn. now rewrite app_nil_r.
  - cbn [b2a_base64]. rewrite a2b_loop_head.
    generalize (N.shiftr (to_N x00) 4), (out ++ [a]). reflexivity.
  - cbn [b2a_base64]. rewrite a2b_loop_head, a2b_loop_third.
    rewrite <- app_assoc. cbn [app].
    generalize (N.land (sextet2 b x00) 3), (out ++ [a; b]). reflexivity.
  - cbn [b2a_base64]. rewrite a2b_loop_head, a2b_loop_tail, IH.
    now rewrite <- !app_assoc.
Qed.

Lemma a2b_b2a_base64 (data : bytes) :
  a2b_base64 (b2a_base64 data) = Some data.
Proof. unfold a2b_base64. now rewrite a2b_loop_b2a_base64. Qed.

(** The encoder only writes characters of the alphabet and the pad. *)
Lemma b2a_in_alphabet (n : N) : In (b2a n) (BASE64_PAD :: table_b2a_base64).
Proof.
  unfold b2a.
  destruct (nth_in_or_default (N.to_nat n) table_b2a_base64 BASE64_PAD) as [H|H].
  - now right.
  - left. now rewrite H.
Qed.

Lemma b2a_base64_alphabet (data : bytes) :
  Forall (fun x => In x (BASE64_PAD :: table_b2a_base64)) (b2a_base64 data).
Proof.
  induction data as [|a|a b|a b c rest IH] using list_ind3;
    cbn [b2a_base64];
    repeat (apply Forall_cons; [first [apply b2a_in_alphabet | now left]|]);
    auto.
Qed.

Lemma list_ascii_of_decode (l : bytes) :
  list_ascii_of_string (decode l) = map ascii_of_byte l.
Proof.
  unfold decode, string_of_list_byte.
  apply list_ascii_of_string_of_list_ascii.
Qed.

Lemma encode_decode (l : bytes) : encode (decode l) = l.
Proof. apply list_byte_of_string_of_list_byte. Qed.

Lemma encode_ascii_b64encode (data : bytes) :
  encode_ascii (decode (b64encode data)) = Some (b64encode data).
Proof.
  unfold encode_ascii. rewrite encode_decode, list_ascii_of_decode.
  replace (forallb is_ascii_char (map ascii_of_byte (b64encode data))) with true;
    [reflexivity|].
  symmetry. apply forallb_forall. intros c [x [<- Hx]]%in_map_iff.
  pose proof (b2a_base64_alphabet data) as HA.
  rewrite Forall_forall in HA. specialize (HA x Hx).
  assert (Hall : forallb (fun y => is_ascii_char (ascii_of_byte y))
                   (BASE64_PAD :: table_b2a_base64) = true)
    by (vm_compute; reflexivity).
  rewrite forallb_forall in Hall. now apply Hall.
Qed.

(** Decoding undoes encoding. *)
Lemma b64decode_b64encode (data : bytes) :
  b64decode (decode (b64encode data)) = Some data.
Proof.
  unfold b64decode. rewrite encode_ascii_b64encode. apply a2b_b2a_base64.
Qed.

(** A text with a character outside ASCII is rejected. *)
Lemma b64decode_non_ascii (s : str) :
  forallb is_ascii_char (list_ascii_of_string s) = false ->
  b64decode s = None.
Proof. intros H. unfold b64decode, encode_ascii. now rewrite H. Qed.

(** Without any pad character, the loop fails exactly when the data
    characters do not fill whole groups of four. *)
Lemma a2b_loop_unpadded (data : bytes) :
  forall (quad_pos leftchar pads : N) (out : bytes),
    ~ In BASE64_PAD data ->
    quad_pos < 4 ->
    (a2b_loop data quad_pos leftchar pads out = None <->
     ((N.to_nat quad_pos + data_chars data) mod 4 <> 0)%nat).
Proof.
  induction data as [|c rest IH]; intros q lc p out Hpad Hq;
    assert (Hcases : q = 0 \/ q = 1 \/ q = 2 \/ q = 3) by lia.
  - destruct Hcases as [-> | [-> | [-> | ->]]]; cbn;
      split; intros H; try discriminate; try congruence.
  - assert (Hc : Byte.eqb c BASE64_PAD = false).
    { destruct (Byte.eqb c BASE64_PAD) eqn:E; [|reflexivity].
      apply byte_dec_bl in E. subst c. elim Hpad. now left. }
    assert (Hrest : ~ In BASE64_PAD rest) by (intros Hin; apply Hpad; now right).
    cbn [a2b_loop]. rewrite Hc.
    unfold data_chars. cbn [filter]. unfold is_data_char at 1.
    destruct (table_a2b_base64 c) as [v|].
    + cbn [List.length]. fold (data_chars rest).
      destruct Hcases as [-> | [-> | [-> | ->]]].
      * rewrite IH by (auto; lia). reflexivity.
      * rewrite IH by (auto; lia).
        now replace (N.to_nat 1 + S (data_chars rest))%nat
          with (N.to_nat 2 + data_chars rest)%nat by lia.
      * rewrite IH by (auto; lia).
        now replace (N.to_nat 2 + S (data_chars rest))%nat
          with (N.to_nat 3 + data_chars rest)%nat by lia.
      * rewrite IH by (auto; lia).
        replace (N.to_nat 3 + S (data_chars rest))%nat
          with (N.to_nat 0 + data_chars rest + 1 * 4)%nat by lia.
        now rewrite Nat.Div0.mod_add.
    + fold (data_chars rest). now apply IH.
Qed.

(** The same for [b64decode]: an ASCII text without [=] is rejected
    exactly when the number of its alphabet characters is not a multiple
    of four. *)
Lemma b64decode_unpadded (s : str) :
  forallb is_ascii_char (list_ascii_of_string s) = true ->
  ~ In BASE64_PAD (encode s) ->
  (b64decode s = None <-> (data_chars (encode s) mod 4 <> 0)%nat).
Proof.
  intros Hascii Hpad. unfold b64decode, encode_ascii. rewrite Hascii.
  unfold a2b_base64. now rewrite a2b_loop_unpadded by (auto; lia).
Qed.

(** [hex] writes two characters per byte, each a digit or a lowercase
    letter from [a] to [f]. *)
Lemma hex_length (b : bytes) : String.length (hex b) = (2 * List.length b)%nat.
Proof. induction b as [|x b IH]; cbn [hex String.length List.length]; lia. Qed.

Lemma hexdigit_in (n : N) : In (hexdigit n) hexdigits.
Proof.
  unfold hexdigit.
  destruct (nth_in_or_default (N.to_nat n) hexdigits "0"%char) as [H|H].
  - exact H.
  - rewrite H. now left.
Qed.

Lemma hex_lowercase (b : bytes) :
  Forall (fun c => In c hexdigits) (list_ascii_of_string (hex b)).
Proof.
  induction b as [|x b IH]; cbn [hex list_ascii_of_string].
  - constructor.
  - repeat (apply Forall_cons; [apply hexdigit_in|]). exact IH.
Qed.

End Base64Facts.

(* ================================================================== *)
(** * Facts about documents and the fix-up *)
(* ================================================================== *)

Section DocFacts.
Import Py Base64 Exporters Aux.

(** Induction on documents, through lists and mappings. *)
Lemma doc_ind (P : doc -> Prop) :
  P DNone ->
  (forall b, P (DBool b)) ->
  (forall z, P (DInt z)) ->
  (forall f, P (DFloat f)) ->
  (forall s, P (DStr s)) ->
  (forall items, Forall P items -> P (DList items)) ->
  (forall entries, Forall (fun kv => P (snd kv)) entries -> P (DDict entries)) ->
  forall d, P d.
Proof.
  intros HN HB HZ HF HS HL HD.
  fix IH 1. intros [ | b | z | f | s | items | entries].
  - exact HN.
  - apply HB.
  - apply HZ.
  - apply HF.
  - apply HS.
  - apply HL. induction items as [|x xs IHxs]; constructor.
    + apply IH.
    + exact IHxs.
  - apply HD. induction entries as [|[k v] xs IHxs]; constructor.
    + apply IH.
    + exact IHxs.
Qed.

Lemma in_BYTES_KEYS_In (k : str) : In k _BYTES_KEYS <-> in_BYTES_KEYS k = true.
Proof.
  unfold in_BYTES_KEYS. rewrite existsb_exists. split.
  - intros H. exists k. split; [exact H | apply String.eqb_refl].
  - intros [x [Hx Heq]]. apply String.eqb_eq in Heq. now subst.
Qed.

(** The identifier fix-up on canonical base64 text. *)
Lemma _b64_to_hex_b64encode (raw : bytes) :
  _b64_to_hex (decode (b64encode raw)) = hex raw.
Proof. unfold _b64_to_hex. now rewrite b64decode_b64encode. Qed.

Lemma _fix_bytes_fields_dict (entries : list (str * doc)) :
  _fix_bytes_fields (DDict entries) =
  DDict (map (fun kv => (fst kv, fix_entry (fst kv) (snd kv))) entries).
Proof.
  cbn [_fix_bytes_fields]. f_equal. apply map_ext. now intros [k v].
Qed.

(** On distinct keys the assignments of a comprehension append one entry
    each, so the comprehension is the map over the items that
    [_fix_bytes_fields] is written with. *)
Lemma dict_setitem_fresh (entries : list (str * doc)) (k : str) (v : doc) :
  ~ In k (map fst entries) -> dict_setitem entries k v = entries ++ [(k, v)].
Proof.
  induction entries as [|[k' v'] rest IH]; cbn [dict_setitem map fst In app];
    intros H.
  - reflexivity.
  - destruct (String.eqb_spec k' k) as [->|_].
    + elim H. now left.
    + rewrite IH; [reflexivity|]. intros Hin. apply H. now right.
Qed.

Lemma dict_comprehension_from (f : str -> doc -> doc) (items : list (str * doc)) :
  forall acc : list (str * doc),
    NoDup (map fst acc ++ map fst items) ->
    fold_left (fun acc kv => dict_setitem acc (fst kv) (f (fst kv) (snd kv)))
      items acc =
    acc ++ map (fun kv => (fst kv, f (fst kv) (snd kv))) items.
Proof.
  induction items as [|[k v] rest IH]; intros acc Hnd;
    cbn [fold_left map fst snd].
  - now rewrite app_nil_r.
  - assert (Hfresh : ~ In k (map fst acc)).
    { cbn [map fst] in Hnd. apply NoDup_remove_2 in Hnd.
      intros Hin. apply Hnd. apply in_or_app. now left. }
    rewrite dict_setitem_fresh by exact Hfresh.
    rewrite IH.
    + now rewrite <- app_assoc.
    + rewrite map_app. cbn [map fst]. rewrite <- app_assoc. exact Hnd.
Qed.

Lemma dict_comprehension_map (f : str -> doc -> doc) (items : list (str * doc)) :
  NoDup (map fst items) ->
  dict_comprehension f items =
  map (fun kv => (fst kv, f (fst kv) (snd kv))) items.
Proof.
  intros H. unfold dict_comprehension.
  now rewrite dict_comprehension_from.
Qed.

Lemma _fix_bytes_fields_comprehension (entries : list (str * doc)) :
  NoDup (map fst entries) ->
  _fix_bytes_fields (DDict entries) = DDict (dict_comprehension fix_entry entries).
Proof.
  intros H. rewrite _fix_bytes_fields_dict. now rewrite dict_comprehension_map.
Qed.

Lemma dict_get_fix (entries : list (str * doc)) (k : str) :
  dict_get (map (fun kv => (fst kv, fix_entry (fst kv) (snd kv))) entries) k =
  option_map (fix_entry k) (dict_get entries k).
Proof.
  induction entries as [|[k' v] rest IH]; cbn [map dict_get fst snd].
  - reflexivity.
  - destruct (String.eqb_spec k' k) as [->|_]; [reflexivity | exact IH].
Qed.

(** One subscripting step commutes with the fix-up. *)
Lemma subscript_fix (d : doc) (s : step) :
  subscript (_fix_bytes_fields d) s = option_map (fix_at [s]) (subscript d s).
Proof.
  destruct d as [ | b | z | f | x | items | entries]; destruct s as [k | i];
    try reflexivity.
  - cbn [_fix_bytes_fields subscript]. unfold fix_at. cbn [last].
    rewrite nth_error_map. reflexivity.
  - rewrite _fix_bytes_fields_dict. cbn [subscript]. unfold fix_at. cbn [last].
    apply dict_get_fix.
Qed.

(** Below a value, it does not matter which of the two replacements was
    made: they differ on strings only, which have nothing below them. *)
Lemma subscript_fix_at (q : list step) (v : doc) (s : step) :
  subscript (fix_at q v) s = subscript (_fix_bytes_fields v) s.
Proof.
  unfold fix_at, fix_entry.
  destruct (last q (Index 0)) as [k | i]; [|reflexivity].
  destruct (in_BYTES_KEYS k); [|reflexivity].
  destruct v; reflexivity.
Qed.

Lemma fix_at_cons (s s' : step) (p : list step) (v : doc) :
  fix_at (s :: s' :: p) v = fix_at (s' :: p) v.
Proof. reflexivity. Qed.

(** Navigation commutes with the fix-up: the value at the end of a path
    in the fixed document is the replacement of the value found there in
    the original. *)
Lemma get_path_fix (p : list step) :
  forall d,
    get_path (_fix_bytes_fields d) p = option_map (fix_at p) (get_path d p).
Proof.
  induction p as [|s p IH]; intros d.
  - reflexivity.
  - cbn [get_path]. rewrite subscript_fix.
    destruct (subscript d s) as [v|]; [|reflexivity].
    cbn [option_map].
    destruct p as [|s' p'].
    + reflexivity.
    + cbn [get_path]. rewrite subscript_fix_at.
      specialize (IH v). cbn [get_path] in IH. rewrite IH.
      destruct (match subscript v s' with
                | Some v0 => get_path v0 p'
                | None => None
                end); reflexivity.
Qed.

Lemma last_snoc {A : Type} (l : list A) (x d : A) : last (l ++ [x]) d = x.
Proof. apply last_last. Qed.

Lemma fix_at_key (p : list step) (k : str) (v : doc) :
  fix_at (p ++ [Key k]) v = fix_entry k v.
Proof. unfold fix_at. now rewrite last_snoc. Qed.

(** The keys of a mapping and the length of a list are kept. *)
Lemma fix_at_dict (p : list step) (entries : list (str * doc)) :
  exists entries',
    fix_at p (DDict entries) = DDict entries' /\
    map fst entries' = map fst entries.
Proof.
  exists (map (fun kv => (fst kv, fix_entry (fst kv) (snd kv))) entries).
  split.
  - unfold fix_at, fix_entry.
    destruct (last p (Index 0)) as [k | i];
      [destruct (in_BYTES_KEYS k)|]; apply _fix_bytes_fields_dict.
  - rewrite map_map. reflexivity.
Qed.

Lemma fix_at_list (p : list step) (items : list doc) :
  exists items',
    fix_at p (DList items) = DList items' /\
    List.length items' = List.length items.
Proof.
  exists (map _fix_bytes_fields items). split.
  - unfold fix_at, fix_entry.
    destruct (last p (Index 0)) as [k | i];
      [destruct (in_BYTES_KEYS k)|]; reflexivity.
  - apply length_map.
Qed.

Lemma fix_at_scalar (p : list step) (v : doc) :
  is_container v = false ->
  (is_str v && ends_under_bytes_key p = false) ->
  fix_at p v = v.
Proof.
  unfold fix_at, fix_entry, ends_under_bytes_key.
  intros Hc Hs.
  destruct (last p (Index 0)) as [k | i].
  - destruct (in_BYTES_KEYS k).
    + destruct v; try reflexivity; try discriminate.
    + destruct v; try reflexivity; discriminate.
  - destruct v; try reflexivity; discriminate.
Qed.

End DocFacts.

(* ================================================================== *)
(** * The identifier fix-up: [_b64_to_hex] and [_fix_bytes_fields] *)
(* ================================================================== *)

Section FixUp.
Import Py Base64 Exporters Aux.

(** C1. In every document, at every depth (after any path [p] through
    nested mappings and lists), a mapping entry whose key is one of
    [traceId], [spanId], [parentSpanId] and whose value is a string
    holding valid base64 is replaced by the lowercase hexadecimal
    rendering of the bytes that string decodes to. *)
Theorem fix_bytes_fields_converts_identifiers :
  forall (d : doc) (p : list step) (k s : str),
    In k _BYTES_KEYS ->
    get_path d (p ++ [Key k]) = Some (DStr s) ->
    valid_base64 s ->
    exists raw : bytes,
      b64decode s = Some raw /\
      get_path (_fix_bytes_fields d) (p ++ [Key k]) = Some (DStr (hex raw)).
Proof.
  intros d p k s Hk Hget [raw ->].
  exists raw. split.
  - apply b64decode_b64encode.
  - rewrite get_path_fix, Hget. cbn [option_map].
    rewrite fix_at_key. unfold fix_entry.
    apply in_BYTES_KEYS_In in Hk. rewrite Hk.
    now rewrite _b64_to_hex_b64encode.
Qed.

(** The same replacement for any text the decoder accepts. *)
Lemma fix_bytes_fields_decodable :
  forall (d : doc) (p : list step) (k s : str) (raw : bytes),
    In k _BYTES_KEYS ->
    get_path d (p ++ [Key k]) = Some (DStr s) ->
    b64decode s = Some raw ->
    get_path (_fix_bytes_fields d) (p ++ [Key k]) = Some (DStr (hex raw)).
Proof.
  intros d p k s raw Hk Hget Hdec.
  rewrite get_path_fix, Hget. cbn [option_map].
  rewrite fix_at_key. unfold fix_entry, _b64_to_hex.
  apply in_BYTES_KEYS_In in Hk. now rewrite Hk, Hdec.
Qed.

(** C4, as amended.  An identifier entry whose string value the base64
    decoder rejects keeps that value, and the other identifier entries of
    the same document are still converted.  The fix-up is a total
    function: it returns a document on every input. *)
Theorem fix_bytes_fields_keeps_rejected :
  forall (d : doc) (p : list step) (k s : str),
    In k _BYTES_KEYS ->
    get_path d (p ++ [Key k]) = Some (DStr s) ->
    b64decode s = None ->
    get_path (_fix_bytes_fields d) (p ++ [Key k]) = Some (DStr s) /\
    (forall (p' : list step) (k' s' : str) (raw : bytes),
        In k' _BYTES_KEYS ->
        get_path d (p' ++ [Key k']) = Some (DStr s') ->
        b64decode s' = Some raw ->
        get_path (_fix_bytes_fields d) (p' ++ [Key k']) = Some (DStr (hex raw))).
Proof.
  intros d p k s Hk Hget Hdec. split.
  - rewrite get_path_fix, Hget. cbn [option_map].
    rewrite fix_at_key. unfold fix_entry, _b64_to_hex.
    apply in_BYTES_KEYS_In in Hk. now rewrite Hk, Hdec.
  - intros p' k' s' raw. apply fix_bytes_fields_decodable.
Qed.

(** C5. For every byte sequence [b], base64-encoding [b] and feeding the
    text through the identifier fix-up gives the lowercase hexadecimal
    rendering of [b]; the decoding step gives back [b] itself. *)
Theorem hex_of_base64_roundtrip :
  forall b : bytes,
    b64decode (decode (b64encode b)) = Some b /\
    hex b = _b64_to_hex (decode (b64encode b)).
Proof.
  intros b. split.
  - apply b64decode_b64encode.
  - symmetry. apply _b64_to_hex_b64encode.
Qed.

(** C6. The fix-up changes only string values stored under the three
    identifier keys.  Whatever a path reaches in the original document, it
    reaches in the result: a mapping with the same keys in the same
    order, a list of the same length, an equal scalar, or, for a string
    directly under an identifier key, again a string; a path that
    reaches nothing in the original reaches nothing in the result. *)
Theorem fix_bytes_fields_frame :
  forall (d : doc) (p : list step),
    match get_path d p with
    | None => get_path (_fix_bytes_fields d) p = None
    | Some (DDict entries) =>
        exists entries',
          get_path (_fix_bytes_fields d) p = Some (DDict entries') /\
          map fst entries' = map fst entries
    | Some (DList items) =>
        exists items',
          get_path (_fix_bytes_fields d) p = Some (DList items') /\
          List.length items' = List.length items
    | Some (DStr s) =>
        if ends_under_bytes_key p
        then exists s', get_path (_fix_bytes_fields d) p = Some (DStr s')
        else get_path (_fix_bytes_fields d) p = Some (DStr s)
    | Some v => get_path (_fix_bytes_fields d) p = Some v
    end.
Proof.
  intros d p. rewrite get_path_fix.
  destruct (get_path d p) as [[ | b | z | f | s | items | entries]|];
    cbn [option_map]; try (now rewrite fix_at_scalar).
  - destruct (ends_under_bytes_key p) eqn:E.
    + unfold fix_at, fix_entry. unfold ends_under_bytes_key in E.
      destruct (last p (Index 0)) as [k | i]; [|discriminate].
      rewrite E. now eexists.
    + now rewrite fix_at_scalar by (cbn; auto).
  - destruct (fix_at_list p items) as [items' [-> Hlen]]. now exists items'.
  - destruct (fix_at_dict p entries) as [entries' [-> Hkeys]]. now exists entries'.
  - reflexivity.
Qed.

End FixUp.

(* ================================================================== *)
(** * Facts about headers and sessions *)
(* ================================================================== *)

Section RequestsFacts.
Import Py Requests.

Lemma store_get_set_same (st : CaseInsensitiveDict) (lk : str) (kv : str * str) :
  store_get (store_set st lk kv) lk = Some kv.
Proof.
  induction st as [|[k old] rest IH]; cbn [store_set store_get].
  - now rewrite String.eqb_refl.
  - destruct (String.eqb k lk) eqn:E; cbn [store_get]; rewrite E; auto.
Qed.

Lemma store_get_set_other (st : CaseInsensitiveDict) (lk lk' : str) (kv : str * str) :
  lk' <> lk -> store_get (store_set st lk kv) lk' = store_get st lk'.
Proof.
  intros Hne.
  induction st as [|[k old] rest IH]; cbn [store_set store_get].
  - destruct (String.eqb_spec lk lk'); [congruence | reflexivity].
  - destruct (String.eqb_spec k lk) as [->|Hk]; cbn [store_get].
    + destruct (String.eqb_spec lk lk'); [congruence | reflexivity].
    + now rewrite IH.
Qed.

(** Reading back the header just written, whatever the case of its
    name. *)
Lemma get_setitem_same (h : CaseInsensitiveDict) (k v : str) :
  get (setitem h k v) k = Some v.
Proof. unfold get, setitem. now rewrite store_get_set_same. Qed.

(** Writing a header leaves the headers of other names alone. *)
Lemma get_setitem_other (h : CaseInsensitiveDict) (k k' v : str) :
  lower k' <> lower k -> get (setitem h k v) k' = get h k'.
Proof. intros H. unfold get, setitem. now rewrite store_get_set_other. Qed.

Lemma body_truthy_false (b : Body) :
  body_truthy b = false <->
  b = BodyNone \/ b = BodyBytes [] \/ b = BodyStr EmptyString.
Proof.
  split.
  - destruct b as [ | [|x l] | [|c s]]; cbn; intros H;
      try discriminate; auto.
  - intros [-> | [-> | ->]]; reflexivity.
Qed.

End RequestsFacts.

(* ================================================================== *)
(** * The adapter *)
(* ================================================================== *)

Section AdapterFacts.
Import Py Requests Exporters.

Variable json_dumps : doc -> bool -> str.
Variable Response : Type.
Variable super_send : PreparedRequest -> Response.

Local Abbreviation send := (Exporters.send json_dumps Response super_send).
Local Abbreviation session_send :=
  (Exporters.session_send json_dumps Response super_send).

Lemma Session_adapters :
  Session = [("https://", HTTPAdapter); ("http://", HTTPAdapter)].
Proof. reflexivity. Qed.

(** For a URL outside the mounted prefix, the session picks the adapter
    a plain session picks. *)
Lemma get_adapter_mount_other (endpoint u : str) (a : adapter) :
  startswith (lower u) (lower endpoint) = false ->
  get_adapter (mount Session endpoint a) u = get_adapter Session u.
Proof.
  intros Hno. rewrite Session_adapters. unfold mount.
  cbn [adapters_set].
  destruct (String.eqb_spec "https://" endpoint) as [<-|H1].
  { cbn [filter fst String.length Nat.ltb Nat.leb negb app get_adapter].
    rewrite Hno. reflexivity. }
  destruct (String.eqb_spec "http://" endpoint) as [<-|H2].
  { cbn [filter fst String.length Nat.ltb Nat.leb negb app get_adapter].
    rewrite Hno. reflexivity. }
  cbn [filter fst].
  change (String.length "https://") with 8%nat.
  change (String.length "http://") with 7%nat.
  rewrite Nat.ltb_irrefl. cbn [negb].
  destruct (Nat.ltb_spec 8 (String.length endpoint)) as [L8|L8];
    destruct (Nat.ltb_spec 7 (String.length endpoint)) as [L7|L7];
    try lia; cbn [negb app get_adapter]; rewrite Hno;
    repeat match goal with
           | |- context [if ?c then _ else _] => destruct c
           end; reflexivity.
Qed.

(** For a URL under the mounted prefix, the session picks the adapter,
    provided the prefix is longer than [https://]; the endpoints of the
    three exporters, which end in [/v1/] and the signal, all are. *)
Lemma get_adapter_mount_endpoint (endpoint u : str) (a : adapter) :
  (8 < String.length endpoint)%nat ->
  startswith (lower u) (lower endpoint) = true ->
  get_adapter (mount Session endpoint a) u = Some a.
Proof.
  intros Hlen Hyes. rewrite Session_adapters. unfold mount.
  cbn [adapters_set].
  destruct (String.eqb_spec "https://" endpoint) as [<-|_];
    [cbn in Hlen; lia|].
  destruct (String.eqb_spec "http://" endpoint) as [<-|_];
    [cbn in Hlen; lia|].
  cbn [filter fst].
  change (String.length "https://") with 8%nat.
  change (String.length "http://") with 7%nat.
  rewrite Nat.ltb_irrefl.
  destruct (Nat.ltb_spec 8 (String.length endpoint)) as [_|L8]; [|lia].
  destruct (Nat.ltb_spec 7 (String.length endpoint)) as [_|L7]; [|lia].
  cbn [negb app get_adapter]. now rewrite Hyes.
Qed.

Lemma length_append (a b : str) :
  String.length (a ++ b)%string = (String.length a + String.length b)%nat.
Proof. induction a as [|c a IH]; cbn; [|rewrite IH]; reflexivity. Qed.

Lemma exporter_session_dispatch (pc : proto_class) (c : Config.ParseableConfig)
      (u : str) :
  startswith (lower u) (lower (Config.traces_endpoint c)) = true ->
  get_adapter (Exporters.session (create_trace_exporter pc c)) u =
  Some (ProtobufToJsonAdapter {| _proto_class := pc |}).
Proof.
  intros H. cbn [create_trace_exporter Exporters.session].
  unfold _create_json_session. apply get_adapter_mount_endpoint; [|exact H].
  unfold Config.traces_endpoint. rewrite length_append. cbn. lia.
Qed.

(** A plain session hands the request on as it is, or finds no adapter. *)
Lemma session_send_plain (request : PreparedRequest) :
  session_send Session request =
  match get_adapter Session (url request) with
  | Some _ => inl (super_send request)
  | None => inr InvalidSchema
  end.
Proof.
  unfold Exporters.session_send. rewrite Session_adapters.
  cbn [get_adapter].
  repeat match goal with
         | |- context [if ?c then _ else _] => destruct c
         end; reflexivity.
Qed.

(** A request with another content type, or none, goes through [send]
    as it is. *)
Lemma send_other_content_type (self : _ProtobufToJsonAdapter)
      (request : PreparedRequest) :
  get (headers request) "Content-Type" <> Some "application/x-protobuf" ->
  send self request = inl (super_send request).
Proof.
  intros H. unfold Exporters.send.
  destruct (get (headers request) "Content-Type") as [ct|] eqn:E.
  - destruct (String.eqb_spec ct "application/x-protobuf") as [->|_].
    + now elim H.
    + now rewrite andb_false_r.
  - now rewrite andb_false_r.
Qed.

(** C2, as amended.  For every request with a non-empty body that
    decodes as the bound message class and whose Content-Type is
    [application/x-protobuf], [send] hands the transport the request
    with the body replaced by the UTF-8 JSON serialization
    ([ensure_ascii=False]) of the fixed-up document, Content-Type set to
    [application/json] and Content-Length set to the byte length of the
    new body; the URL and the other headers are kept. *)
Theorem send_transcodes :
  forall (self : _ProtobufToJsonAdapter) (request : PreparedRequest)
         (msg : message (_proto_class self)),
    body_truthy (body request) = true ->
    get (headers request) "Content-Type" = Some "application/x-protobuf" ->
    ParseFromString (_proto_class self) (body_as_bytes (body request)) = Some msg ->
    let body' :=
      encode (json_dumps
                (_fix_bytes_fields (MessageToDict (_proto_class self) msg true))
                false) in
    exists request' : PreparedRequest,
      send self request = inl (super_send request') /\
      url request' = url request /\
      body request' = BodyBytes body' /\
      get (headers request') "Content-Type" = Some "application/json" /\
      get (headers request') "Content-Length" = Some (str_of_nat (len body')) /\
      (forall key : str,
          lower key <> "content-type" -> lower key <> "content-length" ->
          get (headers request') key = get (headers request) key).
Proof.
  intros self request msg Hbody Hct Hparse body'.
  exists {| url := url request;
            headers := setitem (setitem (headers request)
                                  "Content-Type" "application/json")
                         "Content-Length" (str_of_nat (len body'));
            body := BodyBytes body' |}.
  split.
  - unfold Exporters.send.
    rewrite Hbody, Hct, Hparse, String.eqb_refl. reflexivity.
  - cbn [url headers body]. repeat split.
    + rewrite get_setitem_other by (cbn; discriminate).
      apply get_setitem_same.
    + apply get_setitem_same.
    + intros key H1 H2.
      rewrite !get_setitem_other; auto.
Qed.

(** For a URL outside the mounted prefix, whatever [str.lower()] does,
    the session picks the adapter a plain session picks. *)
Lemma get_adapter_by_mount_other (str_lower : str -> str) (endpoint u : str)
      (a : adapter) :
  startswith (str_lower u) (str_lower endpoint) = false ->
  get_adapter_by str_lower (mount Session endpoint a) u =
  get_adapter_by str_lower Session u.
Proof.
  intros Hno. rewrite Session_adapters. unfold mount.
  cbn [adapters_set].
  destruct (String.eqb_spec "https://" endpoint) as [<-|H1].
  { cbn [filter fst String.length Nat.ltb Nat.leb negb app get_adapter_by].
    rewrite Hno. reflexivity. }
  destruct (String.eqb_spec "http://" endpoint) as [<-|H2].
  { cbn [filter fst String.length Nat.ltb Nat.leb negb app get_adapter_by].
    rewrite Hno. reflexivity. }
  cbn [filter fst].
  change (String.length "https://") with 8%nat.
  change (String.length "http://") with 7%nat.
  rewrite Nat.ltb_irrefl. cbn [negb].
  destruct (Nat.ltb_spec 8 (String.length endpoint)) as [L8|L8];
    destruct (Nat.ltb_spec 7 (String.length endpoint)) as [L7|L7];
    try lia; cbn [negb app get_adapter_by]; rewrite Hno;
    repeat match goal with
           | |- context [if ?c then _ else _] => destruct c
           end; reflexivity.
Qed.

Lemma session_send_by_plain (str_lower : str -> str) (request : PreparedRequest) :
  Exporters.session_send_by json_dumps Response super_send str_lower Session request =
  match get_adapter_by str_lower Session (url request) with
  | Some _ => inl (super_send request)
  | None => inr InvalidSchema
  end.
Proof.
  unfold Exporters.session_send_by. rewrite Session_adapters.
  cbn [get_adapter_by].
  repeat match goal with
         | |- context [if ?c then _ else _] => destruct c
         end; reflexivity.
Qed.

(** The ASCII instance is the session model used elsewhere. *)
Lemma get_adapter_by_lower (m : adapters_map) (u : str) :
  get_adapter_by lower m u = get_adapter m u.
Proof.
  induction m as [|[prefix a] rest IH]; cbn [get_adapter_by get_adapter];
    [|rewrite IH]; reflexivity.
Qed.

(** C3. A request whose Content-Type is not [application/x-protobuf], or
    whose URL does not start with the prefix the adapter is mounted on
    (both lowercased by [str.lower()], whatever that does to them),
    reaches the transport as it is: [send] itself forwards the former
    untouched; for the latter the session of [_create_json_session]
    behaves as a plain session; and in both cases the session hands the
    transport the original request whenever it finds an adapter for the
    URL at all. *)
Theorem passes_through_unchanged :
  forall (str_lower : str -> str) (pc : proto_class) (endpoint : str)
         (request : PreparedRequest),
    get (headers request) "Content-Type" <> Some "application/x-protobuf" \/
    startswith (str_lower (url request)) (str_lower endpoint) = false ->
    (get (headers request) "Content-Type" <> Some "application/x-protobuf" ->
     send {| _proto_class := pc |} request = inl (super_send request)) /\
    (startswith (str_lower (url request)) (str_lower endpoint) = false ->
     Exporters.session_send_by json_dumps Response super_send str_lower
       (_create_json_session pc endpoint) request =
     Exporters.session_send_by json_dumps Response super_send str_lower
       Session request) /\
    Exporters.session_send_by json_dumps Response super_send str_lower
      (_create_json_session pc endpoint) request =
    match get_adapter_by str_lower (_create_json_session pc endpoint)
            (url request) with
    | Some _ => inl (super_send request)
    | None => inr InvalidSchema
    end.
Proof.
  intros str_lower pc endpoint request H. split; [|split].
  - apply send_other_content_type.
  - intros Hno. unfold Exporters.session_send_by, _create_json_session.
    now rewrite get_adapter_by_mount_other.
  - destruct H as [Hct | Hno].
    + unfold Exporters.session_send_by.
      destruct (get_adapter_by _ _ (url request)) as [[|a]|]; try reflexivity.
      now apply send_other_content_type.
    + unfold Exporters.session_send_by at 1. unfold _create_json_session.
      rewrite get_adapter_by_mount_other by assumption.
      apply session_send_by_plain.
Qed.

(** C10. A request whose body is empty ([None] or of length zero) is
    forwarded to the transport as it is, whatever its Content-Type and
    URL. *)
Theorem send_empty_body_unchanged :
  forall (self : _ProtobufToJsonAdapter) (request : PreparedRequest),
    body request = BodyNone \/ body request = BodyBytes [] \/
    body request = BodyStr EmptyString ->
    send self request = inl (super_send request).
Proof.
  intros self request H. apply body_truthy_false in H.
  unfold Exporters.send. now rewrite H.
Qed.

End AdapterFacts.

(* ================================================================== *)
(** * The envelope: endpoints and headers *)
(* ================================================================== *)

Section ConfigFacts.
Import Py Base64 Config.

(** The lookup table and its fallback agree: the source type is always
  [otel-] followed by the signal. *)
Lemma log_source_of_signal (signal : str) :
dict_get_default _LOG_SOURCE_MAP signal ("otel-" ++ signal)%string =
("otel-" ++ signal)%string.
Proof.
unfold _LOG_SOURCE_MAP. cbn [dict_get_default].
destruct (String.eqb_spec "traces" signal) as [<-|_]; [reflexivity|].
destruct (String.eqb_spec "logs" signal) as [<-|_]; [reflexivity|].
destruct (String.eqb_spec "metrics" signal) as [<-|_]; reflexivity.
Qed.

(** C7. For every connection profile, stream name and signal kind: the
  endpoint of each of the three kinds is the base URL followed by
  [/v1/] and the kind, and the three exporters are built with it; the
  header map holds [Authorization] equal to [Basic ] followed by the
  base64 encoding of [username:password] (which decodes back to it),
  the stream name verbatim, and [otel-] followed by the signal kind, for
  the three known kinds and for any other.  With the default profile,
  stream [temporal-traces] and kind [traces], the URL ends in
  [/v1/traces], the source type is [otel-traces] and the authorization
  token decodes to [admin:admin]. *)
Theorem envelope_of_profile :
forall (c : ParseableConfig) (stream signal : str),
  let credentials := encode (username c ++ ":" ++ password c)%string in
  (traces_endpoint c = (url c ++ "/v1/" ++ "traces")%string /\
   logs_endpoint c = (url c ++ "/v1/" ++ "logs")%string /\
   metrics_endpoint c = (url c ++ "/v1/" ++ "metrics")%string) /\
  (forall pc : Exporters.proto_class,
      Exporters.endpoint (Exporters.create_trace_exporter pc c) =
        traces_endpoint c /\
      Exporters.exporter_headers (Exporters.create_trace_exporter pc c) =
        headers_for_signal c (traces_stream c) "traces" /\
      Exporters.endpoint (Exporters.create_log_exporter pc c) =
        logs_endpoint c /\
      Exporters.exporter_headers (Exporters.create_log_exporter pc c) =
        headers_for_signal c (logs_stream c) "logs" /\
      Exporters.endpoint (Exporters.create_metric_exporter pc c) =
        metrics_endpoint c /\
      Exporters.exporter_headers (Exporters.create_metric_exporter pc c) =
        headers_for_signal c (metrics_stream c) "metrics") /\
  headers_for_signal c stream signal =
    [("Authorization", ("Basic " ++ decode (b64encode credentials))%string);
     ("X-P-Stream", stream);
     ("X-P-Log-Source", ("otel-" ++ signal)%string)] /\
  b64decode (decode (b64encode credentials)) = Some credentials /\
  traces_endpoint default_config = "http://localhost:8000/v1/traces" /\
  headers_for_signal default_config "temporal-traces" "traces" =
    [("Authorization", "Basic YWRtaW46YWRtaW4=");
     ("X-P-Stream", "temporal-traces");
     ("X-P-Log-Source", "otel-traces")] /\
  b64decode "YWRtaW46YWRtaW4=" = Some (encode "admin:admin").
Proof.
intros c stream signal credentials.
split; [repeat split|].
split; [intros pc; repeat split|].
split.
{ unfold headers_for_signal, auth_header.
  now rewrite log_source_of_signal. }
split; [apply b64decode_b64encode|].
repeat split.
Qed.

End ConfigFacts.

(* ================================================================== *)
(** * Teardown *)
(* ================================================================== *)

Section PluginFacts.
Import Py Plugin.

(** The loop, when no provider raises outside [Exception]. *)
Lemma shutdown_loop_all (providers : list Provider) :
(forall p e, In p providers -> shutdown p = Some e -> is_Exception e = true) ->
shutdown_calls (fst (shutdown_loop providers)) = providers /\
logged (fst (shutdown_loop providers)) = failures providers /\
snd (shutdown_loop providers) = None.
Proof.
induction providers as [|p rest IH]; intros H.
- repeat split.
- assert (Hrest : forall q e, In q rest -> shutdown q = Some e ->
                              is_Exception e = true)
    by (intros q e Hq; apply H; now right).
  destruct (IH Hrest) as [IH1 [IH2 IH3]].
  cbn [shutdown_loop failures].
  destruct (shutdown p) as [e|] eqn:E.
  + rewrite (H p e (or_introl eq_refl) E).
    destruct (shutdown_loop rest) as [t r].
    cbn [fst snd shutdown_calls logged] in *.
    repeat split; congruence.
  + destruct (shutdown_loop rest) as [t r].
    cbn [fst snd shutdown_calls logged] in *.
    repeat split; congruence.
Qed.

(** C8, as amended.  During teardown, provided no [shutdown()] raises
    outside [Exception], every exception a [shutdown()] raises is caught
    and logged under the class name of the provider, [shutdown()] is
    invoked on every provider of the list, once and in order, and the
    teardown raises nothing of its own: the block ends the way its body
    ended. *)
Theorem teardown_reaches_every_provider :
forall (self : ParseablePlugin) (body : option exn),
  (forall p e, In p (_providers self) -> shutdown p = Some e ->
               is_Exception e = true) ->
  shutdown_calls (fst (_run_context self body)) = _providers self /\
  logged (fst (_run_context self body)) = failures (_providers self) /\
  snd (_run_context self body) = body.
Proof.
intros self body H.
destruct (shutdown_loop_all (_providers self) H) as [H1 [H2 H3]].
unfold _run_context.
destruct (shutdown_loop (_providers self)) as [t r].
cbn [fst snd app shutdown_calls logged] in *.
subst r. repeat split; assumption.
Qed.

End PluginFacts.

(* ================================================================== *)
(** * Activity metrics *)
(* ================================================================== *)

Section MetricsFacts.
Import Py MetricsInterceptor.

(** C9, as amended.  Once a meter has been set, every activity
  execution through the interceptor increments the started counter
  exactly once, before the inner execution, and records exactly one
  duration measurement, whatever the outcome; it increments the
  completed counter exactly once when the inner execution returns (and
  returns that result), the failed counter exactly once when it raises
  an instance of [Exception], and neither of the two when it raises
  outside [Exception]; a raised exception is re-raised.  Every
  increment and the measurement carry the activity type, the workflow
  type and the task queue (and the namespace). *)
Theorem execute_activity_metrics :
forall (A : Type) (meter : Meter) (previous : option Meter) (info : Info)
       (next : outcome A) (t0 t1 : float),
  let attrs :=
    [("activity_type", activity_type info);
     ("workflow_type", workflow_type info);
     ("task_queue", task_queue info);
     ("namespace", workflow_namespace info)] in
  let run := execute_activity (set_meter meter previous) info next t0 t1 in
  snd run = next /\
  counter_adds "temporal.activity.started" (fst run) = [(1%Z, attrs)] /\
  histogram_records "temporal.activity.duration" (fst run) =
    [(PrimFloat.sub t1 t0, attrs)] /\
  counter_adds "temporal.activity.completed" (fst run) =
    match next with
    | Returns _ => [(1%Z, attrs)]
    | Raises _ => []
    end /\
  counter_adds "temporal.activity.failed" (fst run) =
    match next with
    | Returns _ => []
    | Raises e => if is_Exception e then [(1%Z, attrs)] else []
    end /\
  (exists after : list event,
      fst run =
        create_instruments
          ++ CounterAdd "temporal.activity.started" 1 attrs
          :: NextExecuteActivity :: after).
Proof.
intros A meter previous info next t0 t1 attrs run.
subst run attrs. unfold set_meter, execute_activity.
destruct next as [result | e]; [|destruct (is_Exception e)];
  cbn [fst snd]; repeat split; try reflexivity;
  eexists; reflexivity.
Qed.

End MetricsFacts.

(* ================================================================== *)
(** * Concrete runs *)
(* ================================================================== *)

Section Runs.
Import Py Base64 Requests Exporters Aux Samples.

(** The identifier of the sample span is canonical base64 for sixteen
  bytes and comes out as thirty-two hexadecimal digits. *)
Lemma fix_bytes_fields_converts_identifiers_witness :
In "traceId" _BYTES_KEYS /\
get_path trace_doc (span_path ++ [Key "traceId"]) =
  Some (DStr "3q2+796tvu/erb7v3q2+7w==") /\
valid_base64 "3q2+796tvu/erb7v3q2+7w==" /\
exists raw : bytes,
  b64decode "3q2+796tvu/erb7v3q2+7w==" = Some raw /\
  get_path (_fix_bytes_fields trace_doc) (span_path ++ [Key "traceId"]) =
    Some (DStr (hex raw)).
Proof.
assert (H1 : In "traceId" _BYTES_KEYS) by (left; reflexivity).
assert (H2 : get_path trace_doc (span_path ++ [Key "traceId"]) =
             Some (DStr "3q2+796tvu/erb7v3q2+7w==")) by reflexivity.
assert (H3 : valid_base64 "3q2+796tvu/erb7v3q2+7w==")
  by (exists deadbeef; reflexivity).
split; [exact H1|]. split; [exact H2|]. split; [exact H3|].
exact (fix_bytes_fields_converts_identifiers
         trace_doc span_path "traceId" _ H1 H2 H3).
Defined.

(** The span identifier [abc] of the sample is rejected by the decoder
  (three data characters, no padding) and stays; the trace identifier
  next to it is converted all the same. *)
Lemma fix_bytes_fields_keeps_rejected_witness :
In "spanId" _BYTES_KEYS /\
get_path trace_doc (span_path ++ [Key "spanId"]) = Some (DStr "abc") /\
b64decode "abc" = None /\
get_path (_fix_bytes_fields trace_doc) (span_path ++ [Key "spanId"]) =
  Some (DStr "abc") /\
get_path (_fix_bytes_fields trace_doc) (span_path ++ [Key "traceId"]) =
  Some (DStr (hex deadbeef)).
Proof.
assert (H1 : In "spanId" _BYTES_KEYS) by (right; left; reflexivity).
assert (H2 : get_path trace_doc (span_path ++ [Key "spanId"]) =
             Some (DStr "abc")) by reflexivity.
assert (H3 : b64decode "abc" = None) by reflexivity.
destruct (fix_bytes_fields_keeps_rejected trace_doc span_path "spanId" "abc"
            H1 H2 H3) as [K1 K2].
split; [exact H1|]. split; [exact H2|]. split; [exact H3|].
split; [exact K1|].
apply (K2 span_path "traceId" "3q2+796tvu/erb7v3q2+7w==" deadbeef).
- left; reflexivity.
- reflexivity.
- reflexivity.
Defined.

(** The text [ab!cd] is not the base64 encoding of anything, yet the
  decoder drops the [!] and accepts the rest: the fix-up replaces the
  value. *)
Lemma fix_bytes_fields_changes_non_base64 :
~ valid_base64 "ab!cd" /\
get_path (DDict [("traceId", DStr "ab!cd")]) [Key "traceId"] =
  Some (DStr "ab!cd") /\
get_path (_fix_bytes_fields (DDict [("traceId", DStr "ab!cd")])) [Key "traceId"] =
  Some (DStr "69b71d").
Proof.
split; [|split; reflexivity].
intros [raw H].
pose proof (b64decode_b64encode raw) as D.
rewrite <- H in D. vm_compute in D.
injection D as <-. vm_compute in H. discriminate H.
Qed.

(** A protobuf request for the sample message is rewritten to JSON. *)
Lemma send_transcodes_witness :
body_truthy (body protobuf_request) = true /\
get (headers protobuf_request) "Content-Type" = Some "application/x-protobuf" /\
ParseFromString SpanId (body_as_bytes (body protobuf_request)) = Some deadbeef /\
exists request' : PreparedRequest,
  send json_dumps PreparedRequest (fun r => r) {| _proto_class := SpanId |}
    protobuf_request = inl request' /\
  url request' = endpoint /\
  body request' =
    BodyBytes (encode (json_dumps
                         (DDict [("traceId", DStr "deadbeefdeadbeefdeadbeefdeadbeef")])
                         false)) /\
  get (headers request') "content-type" = Some "application/json" /\
  get (headers request') "content-length" = Some "47".
Proof.
assert (H1 : body_truthy (body protobuf_request) = true) by reflexivity.
assert (H2 : get (headers protobuf_request) "Content-Type" =
             Some "application/x-protobuf") by reflexivity.
assert (H3 : ParseFromString SpanId (body_as_bytes (body protobuf_request)) =
             Some deadbeef) by reflexivity.
split; [exact H1|]. split; [exact H2|]. split; [exact H3|].
destruct (send_transcodes json_dumps PreparedRequest (fun r => r)
            {| _proto_class := SpanId |} protobuf_request deadbeef H1 H2 H3)
  as [request' [K1 [K2 [K3 [K4 [K5 _]]]]]].
exists request'. split; [exact K1|]. split; [exact K2|].
split; [exact K3|]. split; [exact K4 | exact K5].
Defined.

(** A protobuf request with an empty body, the encoding of the empty
  message, targets the endpoint the adapter is mounted on, and reaches
  the transport as it was: still marked as protobuf, not as JSON, and
  without the JSON text of the decoded message as its body. *)
Lemma send_keeps_empty_protobuf_request :
get (headers empty_request) "Content-Type" = Some "application/x-protobuf" /\
startswith (lower (url empty_request)) (lower endpoint) = true /\
ParseFromString SpanId [] = Some [] /\
session_send json_dumps PreparedRequest (fun r => r)
  (_create_json_session SpanId endpoint) empty_request = inl empty_request /\
send json_dumps PreparedRequest (fun r => r) {| _proto_class := SpanId |}
  empty_request = inl empty_request /\
get (headers empty_request) "Content-Type" <> Some "application/json" /\
body empty_request <>
  BodyBytes (encode (json_dumps
                       (_fix_bytes_fields (MessageToDict SpanId [] true)) false)) /\
get (headers malformed_request) "Content-Type" = Some "application/x-protobuf" /\
send json_dumps PreparedRequest (fun r => r) {| _proto_class := SpanId |}
  malformed_request = inr DecodeError.
Proof.
repeat split; try reflexivity; discriminate.
Qed.

(** A JSON request to the endpoint, and a protobuf request to another
    host, both pass through the session untouched. *)
Lemma passes_through_unchanged_witness :
  get (headers json_request) "Content-Type" <> Some "application/x-protobuf" /\
  startswith (lower (url other_request)) (lower endpoint) = false /\
  send json_dumps PreparedRequest (fun r => r) {| _proto_class := SpanId |}
    json_request = inl json_request /\
  session_send_by json_dumps PreparedRequest (fun r => r) lower
    (_create_json_session SpanId endpoint) json_request = inl json_request /\
  session_send_by json_dumps PreparedRequest (fun r => r) lower
    (_create_json_session SpanId endpoint) other_request = inl other_request.
Proof.
  assert (H1 : get (headers json_request) "Content-Type" <>
               Some "application/x-protobuf") by discriminate.
  assert (H2 : startswith (lower (url other_request)) (lower endpoint) = false)
    by reflexivity.
  destruct (passes_through_unchanged json_dumps PreparedRequest (fun r => r)
              lower SpanId endpoint json_request (or_introl H1)) as [K1 [_ K2]].
  destruct (passes_through_unchanged json_dumps PreparedRequest (fun r => r)
              lower SpanId endpoint other_request (or_intror H2)) as [_ [_ K3]].
  split; [exact H1|]. split; [exact H2|].
  split; [exact (K1 H1)|]. split; [exact K2 | exact K3].
Defined.

(** The empty protobuf request is forwarded as it is. *)
Lemma send_empty_body_unchanged_witness :
(body empty_request = BodyNone \/ body empty_request = BodyBytes [] \/
 body empty_request = BodyStr EmptyString) /\
send json_dumps PreparedRequest (fun r => r) {| _proto_class := SpanId |}
  empty_request = inl empty_request.
Proof.
assert (H : body empty_request = BodyNone \/ body empty_request = BodyBytes [] \/
            body empty_request = BodyStr EmptyString)
  by (right; left; reflexivity).
split; [exact H|].
exact (send_empty_body_unchanged json_dumps PreparedRequest (fun r => r)
         {| _proto_class := SpanId |} empty_request H).
Defined.

(** End to end: sixteen bytes [de ad be ef ...] leave as thirty-two
  lowercase hexadecimal digits under [traceId]. *)
Example deadbeef_end_to_end :
option_map (fun request => body request)
  (match send json_dumps PreparedRequest (fun r => r)
           {| _proto_class := SpanId |} protobuf_request with
   | inl request => Some request
   | inr _ => None
   end) =
Some (BodyBytes
        (x7b :: encode (quote "traceId" ++ ": "
                          ++ quote "deadbeefdeadbeefdeadbeefdeadbeef")%string
             ++ [x7d])).
Proof. reflexivity. Qed.

(** A tracer provider and a meter provider that fail to shut down, with
  a logger provider between them: all three are shut down, both
  failures are logged, and the block ends normally. *)
Lemma teardown_reaches_every_provider_witness :
(forall p e, In p (Plugin._providers plugin) -> Plugin.shutdown p = Some e ->
             is_Exception e = true) /\
Plugin.shutdown_calls (fst (Plugin._run_context plugin None)) =
  [tracer_provider; logger_provider; meter_provider] /\
Plugin.logged (fst (Plugin._run_context plugin None)) =
  [("TracerProvider", RuntimeError); ("MeterProvider", RuntimeError)] /\
snd (Plugin._run_context plugin None) = None.
Proof.
assert (H : forall p e, In p (Plugin._providers plugin) ->
                        Plugin.shutdown p = Some e -> is_Exception e = true).
{ intros p e [<- | [<- | [<- | []]]] E; cbn in E;
    try discriminate E; injection E as <-; reflexivity. }
split; [exact H|].
exact (teardown_reaches_every_provider plugin None H).
Defined.

(** Outside the handler: a [KeyboardInterrupt] raised by the first
  provider leaves the loop, the next provider is not shut down, and the
  interrupt replaces the outcome of the body. *)
Example teardown_interrupted :
let first := {| Plugin.type_name := "TracerProvider";
                Plugin.shutdown := Some KeyboardInterrupt |} in
let self := {| Plugin.config := Config.default_config;
               Plugin._providers := [first; logger_provider] |} in
Plugin.shutdown_calls (fst (Plugin._run_context self None)) = [first] /\
snd (Plugin._run_context self None) = Some KeyboardInterrupt.
Proof. split; reflexivity. Qed.

(** A cancelled activity raises [asyncio.CancelledError], which does not
  derive from [Exception]: started is incremented and the duration
  recorded, but neither completed nor failed is incremented. *)
Lemma cancelled_activity_counts_neither :
let run :=
  MetricsInterceptor.execute_activity (A := unit)
    (MetricsInterceptor.set_meter meter None) info (Raises CancelledError)
    PrimFloat.zero PrimFloat.one in
snd run = Raises CancelledError /\
List.length (MetricsInterceptor.counter_adds "temporal.activity.started" (fst run)) = 1%nat /\
List.length (MetricsInterceptor.histogram_records "temporal.activity.duration" (fst run)) = 1%nat /\
MetricsInterceptor.counter_adds "temporal.activity.completed" (fst run) = [] /\
MetricsInterceptor.counter_adds "temporal.activity.failed" (fst run) = [].
Proof. repeat split. Qed.

(** Without a meter the interceptor only calls the inner execution. *)
Example execute_activity_without_meter :
MetricsInterceptor.execute_activity (A := unit) None info (Returns tt)
  PrimFloat.zero PrimFloat.one = ([MetricsInterceptor.NextExecuteActivity], Returns tt).
Proof. reflexivity. Qed.

End Runs.


(* ================================================================== *)
(** * More on the identifier fix-up *)
(* ================================================================== *)

Section FixUpMore.
Import Py Base64 Exporters Aux Views.

Lemma hex_pair_ok_all (x y : byte) : hex_pair_ok x y = true.
Proof. revert x y. apply forall_bytes2. vm_compute. reflexivity. Qed.

(** [bytes.hex] loses nothing. *)
Lemma hex_injective (b1 : bytes) :
  forall b2 : bytes, hex b1 = hex b2 -> b1 = b2.
Proof.
  induction b1 as [|x r IH]; intros [|y r'] H; cbn [hex] in H;
    try discriminate H; [reflexivity|].
  injection H as Hhi Hlo Hrest.
  pose proof (hex_pair_ok_all x y) as Hxy. unfold hex_pair_ok in Hxy.
  assert (E1 : Ascii.eqb (hexdigit (N.shiftr (to_N x) 4))
                 (hexdigit (N.shiftr (to_N y) 4)) = true)
    by (apply Ascii.eqb_eq; exact Hhi).
  assert (E2 : Ascii.eqb (hexdigit (N.land (to_N x) 15))
                 (hexdigit (N.land (to_N y) 15)) = true)
    by (apply Ascii.eqb_eq; exact Hlo).
  rewrite E1, E2 in Hxy. cbn [andb implb] in Hxy.
  apply byte_dec_bl in Hxy. subst y. f_equal. now apply IH.
Qed.

Lemma hexdigit_ok_all (c : ascii) : In c hexdigits -> hexdigit_ok c = true.
Proof.
  assert (H : forallb hexdigit_ok hexdigits = true) by (vm_compute; reflexivity).
  rewrite forallb_forall in H. apply H.
Qed.

Lemma hexdigits_text (l : list ascii) :
  Forall (fun c => In c hexdigits) l ->
  forallb is_ascii_char l = true /\
  ~ In BASE64_PAD (map byte_of_ascii l) /\
  List.length (filter is_data_char (map byte_of_ascii l)) = List.length l.
Proof.
  induction 1 as [|c l Hc Hl [IH1 [IH2 IH3]]].
  - repeat split. intros [].
  - apply hexdigit_ok_all in Hc. unfold hexdigit_ok in Hc.
    apply andb_prop in Hc as [Hc H3]. apply andb_prop in Hc as [H1 H2].
    apply negb_true_iff in H2.
    cbn [forallb map filter In]. rewrite H1, H3.
    repeat split.
    + exact IH1.
    + intros [E | E]; [|now apply IH2].
      rewrite <- E in H2. now rewrite (byte_dec_lb eq_refl) in H2.
    + cbn [List.length]. now rewrite IH3.
Qed.

Lemma length_list_ascii_of_string (s : str) :
  List.length (list_ascii_of_string s) = String.length s.
Proof. induction s as [|c s IH]; cbn; [|rewrite IH]; reflexivity. Qed.

(** The text [hex] writes: ASCII, free of [=], made of alphabet
    characters only. *)
Lemma hex_text (b : bytes) :
  forallb is_ascii_char (list_ascii_of_string (hex b)) = true /\
  ~ In BASE64_PAD (encode (hex b)) /\
  data_chars (encode (hex b)) = (2 * List.length b)%nat.
Proof.
  destruct (hexdigits_text _ (hex_lowercase b)) as [H1 [H2 H3]].
  split; [exact H1|]. split; [exact H2|].
  unfold data_chars, encode, list_byte_of_string.
  now rewrite H3, length_list_ascii_of_string, hex_length.
Qed.

(** Without pad characters, a successful run of the loop writes three
    bytes for every four data characters. *)
Lemma a2b_loop_unpadded_length (data : bytes) :
  forall (quad_pos leftchar pads : N) (out out' : bytes),
    ~ In BASE64_PAD data ->
    quad_pos < 4 ->
    a2b_loop data quad_pos leftchar pads out = Some out' ->
    (4 * (List.length out' + written_in_group quad_pos) =
     4 * List.length out + 3 * (N.to_nat quad_pos + data_chars data))%nat.
Proof.
  induction data as [|c rest IH]; intros q lc p out out' Hpad Hq;
    assert (Hcases : q = 0 \/ q = 1 \/ q = 2 \/ q = 3) by lia.
  - destruct Hcases as [-> | [-> | [-> | ->]]]; cbn; intros H;
      try discriminate H.
    injection H as <-. lia.
  - assert (Hc : Byte.eqb c BASE64_PAD = false).
    { destruct (Byte.eqb c BASE64_PAD) eqn:E; [|reflexivity].
      apply byte_dec_bl in E. subst c. elim Hpad. now left. }
    assert (Hrest : ~ In BASE64_PAD rest) by (intros Hin; apply Hpad; now right).
    cbn [a2b_loop]. rewrite Hc.
    unfold data_chars. cbn [filter]. unfold is_data_char at 1.
    destruct (table_a2b_base64 c) as [v|].
    + cbn [List.length]. fold (data_chars rest).
      destruct Hcases as [-> | [-> | [-> | ->]]]; intros H;
        apply IH in H; try assumption; try lia;
        rewrite ?length_app in H; cbn [List.length] in H;
        unfold written_in_group in *; cbn in H |- *; lia.
    + fold (data_chars rest). now apply IH.
Qed.

(** X1. The identifier fix-up renders the base64 text of [n] bytes as
    exactly [2 n] lowercase hexadecimal digits, and renders different
    byte sequences differently. *)
Theorem identifier_rendering :
  forall b1 b2 : bytes,
    String.length (_b64_to_hex (decode (b64encode b1))) = (2 * List.length b1)%nat /\
    Forall (fun c => In c hexdigits)
      (list_ascii_of_string (_b64_to_hex (decode (b64encode b1)))) /\
    (_b64_to_hex (decode (b64encode b1)) = _b64_to_hex (decode (b64encode b2)) ->
     b1 = b2).
Proof.
  intros b1 b2. rewrite !_b64_to_hex_b64encode.
  split; [apply hex_length|]. split; [apply hex_lowercase|].
  apply hex_injective.
Qed.

(** X2. The fix-up must run once only.  Applied to its own output for a
    non-empty identifier with an even number of bytes (a trace or span
    identifier), [_b64_to_hex] takes the hexadecimal text for base64 and
    changes it; for an odd number of bytes the decoder rejects the text
    and it stays. *)
Theorem fix_up_twice :
  forall raw : bytes,
    (raw <> [] -> Nat.even (List.length raw) = true ->
     _b64_to_hex (_b64_to_hex (decode (b64encode raw))) <>
     _b64_to_hex (decode (b64encode raw))) /\
    (Nat.even (List.length raw) = false ->
     _b64_to_hex (_b64_to_hex (decode (b64encode raw))) =
     _b64_to_hex (decode (b64encode raw))).
Proof.
  intros raw. rewrite _b64_to_hex_b64encode.
  destruct (hex_text raw) as [Hascii [Hpad Hdata]].
  pose proof (b64decode_unpadded (hex raw) Hascii Hpad) as Hrej.
  rewrite Hdata in Hrej.
  split.
  - intros Hne Heven.
    apply Nat.even_spec in Heven. destruct Heven as [k Hk].
    destruct (b64decode (hex raw)) as [out|] eqn:Hdec.
    + unfold _b64_to_hex. rewrite Hdec. intros Heq.
      apply hex_injective in Heq. subst out.
      unfold b64decode, encode_ascii in Hdec. rewrite Hascii in Hdec.
      unfold a2b_base64 in Hdec.
      apply a2b_loop_unpadded_length in Hdec; [|exact Hpad|lia].
      rewrite Hdata in Hdec. cbn in Hdec.
      destruct raw; [now elim Hne | cbn [List.length] in *; lia].
    + exfalso. apply (proj1 Hrej eq_refl).
      rewrite Hk. replace (2 * (2 * k))%nat with (k * 4)%nat by lia.
      apply Nat.Div0.mod_mul.
  - intros Hodd.
    assert (Hnone : b64decode (hex raw) = None).
    { apply Hrej.
      assert (Ho : Nat.odd (List.length raw) = true)
        by (unfold Nat.odd; now rewrite Hodd).
      apply Nat.odd_spec in Ho. destruct Ho as [k Hk]. rewrite Hk.
      replace (2 * (2 * k + 1))%nat with (2 + k * 4)%nat by lia.
      rewrite Nat.Div0.mod_add. cbn. discriminate. }
    unfold _b64_to_hex at 1. now rewrite Hnone.
Qed.

Lemma map_fixed {A : Type} (f : A -> A) (l : list A) :
  map f l = l <-> Forall (fun x => f x = x) l.
Proof.
  induction l as [|x l IH]; cbn [map].
  - split; [constructor | reflexivity].
  - split.
    + intros H. injection H as Hx Hl. constructor; [exact Hx | now apply IH].
    + intros H. inversion H as [|? ? Hx Hl]; subst.
      f_equal; [exact Hx | now apply IH].
Qed.

(** X3. The fix-up returns a document unchanged exactly when every
    string under an identifier key in it, at any depth, is one that
    [_b64_to_hex] leaves as it is; in particular when there is none. *)
Theorem fix_bytes_fields_unchanged_iff :
  forall d : doc, _fix_bytes_fields d = d <-> identifiers_stable d = true.
Proof.
  induction d as [ | b | z | f | s | items IH | entries IH] using doc_ind;
    try (split; reflexivity).
  - cbn [_fix_bytes_fields identifiers_stable].
    rewrite forallb_forall. split.
    + intros H. injection H as H. apply map_fixed in H.
      rewrite Forall_forall in H, IH. intros x Hx.
      apply IH; auto.
    + intros H. f_equal. apply map_fixed.
      rewrite Forall_forall in IH |- *. intros x Hx.
      apply IH; auto.
  - rewrite _fix_bytes_fields_dict. cbn [identifiers_stable].
    rewrite forallb_forall.
    assert (Hentry : forall kv, In kv entries ->
              ((fst kv, fix_entry (fst kv) (snd kv)) = kv <->
               (let (k, v) := kv in
                if in_BYTES_KEYS k then
                  match v with
                  | DStr s => String.eqb (_b64_to_hex s) s
                  | _ => identifiers_stable v
                  end
                else identifiers_stable v) = true)).
    { intros [k v] Hin. rewrite Forall_forall in IH.
      specialize (IH (k, v) Hin). cbn [fst snd] in *.
      unfold fix_entry.
      assert (Hpair : forall w, (k, w) = (k, v) <-> w = v)
        by (intros w; split; [intros E; now injection E | now intros ->]).
      rewrite Hpair.
      destruct (in_BYTES_KEYS k); [|exact IH].
      destruct v; try exact IH.
      rewrite String.eqb_eq. split; [intros E; now injection E | now intros ->]. }
    split.
    + intros H. injection H as H. apply map_fixed in H.
      rewrite Forall_forall in H. intros kv Hin.
      apply Hentry; auto.
    + intros H. f_equal. apply map_fixed.
      rewrite Forall_forall. intros kv Hin.
      apply Hentry; auto.
Qed.

Lemma fold_left_ext_in {A B : Type} (f g : A -> B -> A) (l : list B) :
  (forall acc x, In x l -> f acc x = g acc x) ->
  forall acc, fold_left f l acc = fold_left g l acc.
Proof.
  induction l as [|x l IH]; intros H acc; cbn [fold_left].
  - reflexivity.
  - rewrite H by now left. apply IH. intros a y Hy. apply H. now right.
Qed.

(** X4. Mappings with pairwise distinct keys stay so under the fix-up,
    and on such documents building every result mapping by successive
    assignments, as the dict comprehension does, gives the document the
    fix-up is modelled to return: no entry is overwritten or merged. *)
Theorem fix_bytes_fields_distinct_keys :
  forall d : doc,
    distinct_keys d ->
    distinct_keys (_fix_bytes_fields d) /\
    fix_by_assignment d = _fix_bytes_fields d.
Proof.
  induction d as [ | b | z | f | s | items IH | entries IH] using doc_ind;
    intros Hd; try (split; [exact Hd | reflexivity]).
  - inversion Hd as [? Hc | ? Hitems | ]; subst; [discriminate Hc|].
    rewrite Forall_forall in IH, Hitems.
    cbn [_fix_bytes_fields fix_by_assignment]. split.
    + apply distinct_list. rewrite Forall_forall.
      intros y [x [<- Hx]]%in_map_iff. now apply IH; auto.
    + f_equal. apply map_ext_in. intros x Hx. now apply IH; auto.
  - inversion Hd as [? Hc | | ? Hnodup Hvals]; subst; [discriminate Hc|].
    rewrite Forall_forall in IH, Hvals.
    assert (Hentry : forall kv, In kv entries ->
              distinct_keys (fix_entry (fst kv) (snd kv)) /\
              (let (k, v) := kv in
               if in_BYTES_KEYS k then
                 match v with
                 | DStr s => DStr (_b64_to_hex s)
                 | _ => fix_by_assignment v
                 end
               else fix_by_assignment v) = fix_entry (fst kv) (snd kv)).
    { intros [k v] Hin.
      destruct (IH (k, v) Hin (Hvals (k, v) Hin)) as [H1 H2].
      cbn [fst snd] in *. unfold fix_entry.
      destruct (in_BYTES_KEYS k); [|now split].
      destruct v; try (now split).
      split; [now apply distinct_scalar | reflexivity]. }
    rewrite _fix_bytes_fields_dict. split.
    + apply distinct_dict.
      * rewrite map_map. exact Hnodup.
      * rewrite Forall_forall. intros y [kv [<- Hkv]]%in_map_iff.
        cbn [snd]. now apply Hentry.
    + cbn [fix_by_assignment]. f_equal.
      rewrite (fold_left_ext_in _
                 (fun acc kv => dict_setitem acc (fst kv)
                                  (fix_entry (fst kv) (snd kv)))).
      * now rewrite dict_comprehension_from.
      * intros acc [k v] Hin. cbn [fst snd].
        f_equal. exact (proj2 (Hentry (k, v) Hin)).
Qed.

(** X22. What [_b64_to_hex] does with text that is not padded base64.
    A text with a character outside ASCII is kept.  An ASCII text
    without [=] is kept when the number of its alphabet characters is
    not a multiple of four; otherwise it is decoded with every other
    character dropped, and replaced by three hexadecimal digits for
    every two alphabet characters. *)
Theorem b64_to_hex_without_padding :
  forall value : str,
    (forallb is_ascii_char (list_ascii_of_string value) = false ->
     _b64_to_hex value = value) /\
    (forallb is_ascii_char (list_ascii_of_string value) = true ->
     ~ In BASE64_PAD (encode value) ->
     ((data_chars (encode value) mod 4 <> 0)%nat -> _b64_to_hex value = value) /\
     ((data_chars (encode value) mod 4 = 0)%nat ->
      (2 * String.length (_b64_to_hex value) = 3 * data_chars (encode value))%nat)).
Proof.
  intros value. split.
  - intros H. unfold _b64_to_hex. now rewrite b64decode_non_ascii.
  - intros Hascii Hpad.
    pose proof (b64decode_unpadded value Hascii Hpad) as Hrej. split.
    + intros Hmod. unfold _b64_to_hex. now rewrite (proj2 Hrej Hmod).
    + intros Hmod. unfold _b64_to_hex.
      destruct (b64decode value) as [out|] eqn:Hdec.
      * unfold b64decode, encode_ascii in Hdec. rewrite Hascii in Hdec.
        unfold a2b_base64 in Hdec.
        apply a2b_loop_unpadded_length in Hdec; [|exact Hpad|lia].
        rewrite hex_length. cbn in Hdec. lia.
      * now elim (proj1 Hrej eq_refl).
Qed.

End FixUpMore.


(* ================================================================== *)
(** * More on the adapter and the sessions *)
(* ================================================================== *)

Section SendMore.
Import Py Requests Exporters Views.

Variable json_dumps : doc -> bool -> str.

(** The request the transport is handed: [send] over a transport that
    returns its argument. *)
Local Abbreviation handed :=
  (Exporters.send json_dumps PreparedRequest (fun r => r)).

(** Whatever the transport, [send] calls it on the handed request and
    returns what it returns; it is not called when decoding fails. *)
Lemma send_factors (Response : Type) (super_send : PreparedRequest -> Response)
      (self : _ProtobufToJsonAdapter) (request : PreparedRequest) :
  Exporters.send json_dumps Response super_send self request =
  match handed self request with
  | inl request' => inl (super_send request')
  | inr e => inr e
  end.
Proof.
  unfold Exporters.send.
  destruct (body_truthy (body request) && _); [|reflexivity].
  destruct (ParseFromString _ _); reflexivity.
Qed.

Lemma store_set_keys (st : CaseInsensitiveDict) (lk : str) (kv : str * str) :
  (In lk (map fst st) /\ map fst (store_set st lk kv) = map fst st) \/
  (~ In lk (map fst st) /\ map fst (store_set st lk kv) = map fst st ++ [lk]).
Proof.
  induction st as [|[k old] rest IH]; cbn [store_set map fst In app].
  - right. split; [tauto | reflexivity].
  - destruct (String.eqb_spec k lk) as [->|Hk]; cbn [map fst].
    + left. split; [now left | reflexivity].
    + destruct IH as [[Hin He] | [Hnin He]]; rewrite He.
      * left. split; [now right | reflexivity].
      * right. split; [|reflexivity]. intros [E | E]; [now elim Hk | now elim Hnin].
Qed.

Lemma setitem_ok (h : CaseInsensitiveDict) (k v : str) :
  headers_ok h -> headers_ok (setitem h k v).
Proof.
  intros [Hnd Hlow]. unfold setitem. split.
  - destruct (store_set_keys h (lower k) (k, v)) as [[_ ->] | [Hnin ->]].
    + exact Hnd.
    + apply NoDup_app; [exact Hnd | repeat constructor; intros [] |].
      intros a Ha [<- | []]. now elim Hnin.
  - clear Hnd. induction h as [|[k0 old] rest IH]; cbn [store_set].
    + repeat constructor.
    + inversion Hlow as [|? ? H0 Hrest]; subst.
      destruct (String.eqb_spec k0 (lower k)) as [->|_].
      * constructor; [reflexivity | exact Hrest].
      * constructor; [exact H0 | now apply IH].
Qed.

(** X5. Whatever request [send] hands to the transport, it has the URL
    of the original and every header other than Content-Type and
    Content-Length as in the original; and for any transport, [send]
    returns what the transport returns for that request. *)
Theorem send_frame :
  forall (self : _ProtobufToJsonAdapter) (request request' : PreparedRequest),
    handed self request = inl request' ->
    url request' = url request /\
    (forall key : str,
        lower key <> "content-type" -> lower key <> "content-length" ->
        get (headers request') key = get (headers request) key) /\
    (forall (Response : Type) (super_send : PreparedRequest -> Response),
        Exporters.send json_dumps Response super_send self request =
        inl (super_send request')).
Proof.
  intros self request request' H.
  split; [|split].
  - unfold Exporters.send in H.
    destruct (body_truthy (body request) && _).
    + destruct (ParseFromString _ _); [|discriminate H].
      injection H as <-. reflexivity.
    + injection H as <-. reflexivity.
  - intros key H1 H2. unfold Exporters.send in H.
    destruct (body_truthy (body request) && _).
    + destruct (ParseFromString _ _); [|discriminate H].
      injection H as <-. cbn [headers].
      now rewrite !get_setitem_other.
    + injection H as <-. reflexivity.
  - intros Response super_send. now rewrite send_factors, H.
Qed.

(** X6. [send] never changes the body alone: the handed request is the
    original, or its body is bytes, its Content-Type is
    [application/json] and its Content-Length is the decimal length of
    those bytes. *)
Theorem send_keeps_headers_consistent :
  forall (self : _ProtobufToJsonAdapter) (request request' : PreparedRequest),
    handed self request = inl request' ->
    request' = request \/
    exists b : bytes,
      body request' = BodyBytes b /\
      get (headers request') "Content-Type" = Some "application/json" /\
      get (headers request') "Content-Length" = Some (str_of_nat (len b)).
Proof.
  intros self request request' H. unfold Exporters.send in H.
  destruct (body_truthy (body request) && _).
  - destruct (ParseFromString _ _) as [msg|]; [|discriminate H].
    injection H as <-. right. eexists. cbn [body headers].
    split; [reflexivity|]. split.
    + rewrite get_setitem_other by (cbn; discriminate).
      apply get_setitem_same.
    + apply get_setitem_same.
  - injection H as <-. now left.
Qed.

(** X7. A request that went through [send] goes through it again
    unchanged: a transcoded request is marked as JSON and is not decoded
    a second time. *)
Theorem send_twice :
  forall (self : _ProtobufToJsonAdapter) (request request' : PreparedRequest),
    handed self request = inl request' ->
    handed self request' = inl request'.
Proof.
  intros self request request' H.
  destruct (send_keeps_headers_consistent self request request' H)
    as [-> | [b [_ [Hct _]]]]; [exact H|].
  unfold Exporters.send. rewrite Hct.
  change (String.eqb "application/json" "application/x-protobuf") with false.
  now rewrite andb_false_r.
Qed.

(** X8. [send] keeps the header store in order: still one entry per
    name whatever its case, each filed under its lowercased name. *)
Theorem send_keeps_headers_ok :
  forall (self : _ProtobufToJsonAdapter) (request request' : PreparedRequest),
    headers_ok (headers request) ->
    handed self request = inl request' ->
    headers_ok (headers request').
Proof.
  intros self request request' Hok H. unfold Exporters.send in H.
  destruct (body_truthy (body request) && _).
  - destruct (ParseFromString _ _) as [msg|]; [|discriminate H].
    injection H as <-. cbn [headers]. now apply setitem_ok, setitem_ok.
  - injection H as <-. exact Hok.
Qed.


Lemma prefix_split (a : str) :
  forall s : str, String.prefix a s = true -> exists t : str, s = (a ++ t)%string.
Proof.
  induction a as [|c a IH]; intros s H.
  - now exists s.
  - destruct s as [|c' s]; cbn in H; [discriminate H|].
    destruct (ascii_dec c c') as [<-|_]; [|discriminate H].
    destruct (IH s H) as [t ->]. now exists t.
Qed.

Lemma prefix_app (a b t : str) :
  String.prefix (a ++ b)%string (a ++ t)%string = String.prefix b t.
Proof.
  induction a as [|c a IH]; cbn; [reflexivity|].
  destruct (ascii_dec c c) as [_|H]; [exact IH | now elim H].
Qed.

Lemma append_assoc (a b c : str) : ((a ++ b) ++ c = a ++ (b ++ c))%string.
Proof. induction a as [|x a IH]; cbn; [|rewrite IH]; reflexivity. Qed.

Lemma lower_app (a b : str) : lower (a ++ b)%string = (lower a ++ lower b)%string.
Proof. induction a as [|x a IH]; cbn; [|rewrite IH]; reflexivity. Qed.

Lemma endpoint_for_form (c : Config.ParseableConfig) (s : signal) :
  endpoint_for c s = (Config.url c ++ "/v1/" ++ signal_name s)%string.
Proof. destruct s; reflexivity. Qed.

Lemma session_exporter_for (pc : signal -> proto_class) (c : Config.ParseableConfig)
      (s : signal) :
  session (exporter_for pc c s) = _create_json_session (pc s) (endpoint_for c s) /\
  endpoint (exporter_for pc c s) = endpoint_for c s.
Proof. destruct s; split; reflexivity. Qed.



(** The endpoints of two different signals of one profile: a URL under
    one is not under the other. *)
Lemma endpoints_disjoint (c : Config.ParseableConfig) (s s' : signal) (u : str) :
  s <> s' ->
  startswith (lower u) (lower (endpoint_for c s')) = true ->
  startswith (lower u) (lower (endpoint_for c s)) = false.
Proof.
  intros Hne H. unfold startswith in *.
  rewrite endpoint_for_form, lower_app in H |- *.
  apply prefix_split in H. destruct H as [t Ht].
  rewrite Ht, append_assoc, prefix_app.
  destruct s, s'; try (now elim Hne); reflexivity.
Qed.

(** X11. The adapters of the three signals do not overlap: a request to
    a URL under the endpoint of another signal of the same profile is
    handled by an exporter's session as by a plain session, and so
    reaches the transport as it is. *)
Theorem exporter_sessions_isolated :
  forall (pc : signal -> proto_class) (c : Config.ParseableConfig)
         (s s' : signal) (request : PreparedRequest)
         (Response : Type) (super_send : PreparedRequest -> Response),
    s <> s' ->
    startswith (lower (url request)) (lower (endpoint_for c s')) = true ->
    get_adapter (session (exporter_for pc c s)) (url request) =
      get_adapter Session (url request) /\
    (session_send json_dumps Response super_send
       (session (exporter_for pc c s)) request = inl (super_send request) \/
     session_send json_dumps Response super_send
       (session (exporter_for pc c s)) request = inr InvalidSchema).
Proof.
  intros pc c s s' request Response super_send Hne H.
  pose proof (endpoints_disjoint c s s' (url request) Hne H) as Hno.
  destruct (session_exporter_for pc c s) as [-> _].
  assert (E : get_adapter (_create_json_session (pc s) (endpoint_for c s))
                (url request) = get_adapter Session (url request))
    by (unfold _create_json_session; now apply get_adapter_mount_other).
  split; [exact E|].
  unfold Exporters.session_send. rewrite E, Session_adapters.
  cbn [get_adapter].
  repeat match goal with
         | |- context [if ?b then _ else _] => destruct b
         end; auto.
Qed.

End SendMore.


(* ================================================================== *)
(** * More on the envelope *)
(* ================================================================== *)

Section ConfigMore.
Import Py Base64 Config.

Lemma decode_encode (s : str) : decode (encode s) = s.
Proof. apply string_of_list_byte_of_string. Qed.

Lemma length_decode (l : bytes) : String.length (decode l) = List.length l.
Proof.
  rewrite <- length_list_ascii_of_string, list_ascii_of_decode.
  apply length_map.
Qed.

Lemma length_encode (s : str) : List.length (encode s) = String.length s.
Proof.
  unfold encode, list_byte_of_string.
  now rewrite length_map, length_list_ascii_of_string.
Qed.

(** The encoder writes four characters for every three bytes, the last
    group padded. *)
Lemma length_b2a_base64 (data : bytes) :
  List.length (b2a_base64 data) = (4 * ((List.length data + 2) / 3))%nat.
Proof.
  induction data as [|a|a b|a b c rest IH] using list_ind3;
    try reflexivity.
  cbn [b2a_base64 List.length]. rewrite IH.
  replace (S (S (S (List.length rest))) + 2)%nat
    with (List.length rest + 2 + 1 * 3)%nat by lia.
  rewrite Nat.div_add by discriminate. lia.
Qed.

(** X12. Two profiles get the same Authorization header exactly when
    their [username:password] texts are the same: the header loses
    nothing of that text (and tells nothing more, e.g. not where the
    user name ends). *)
Theorem auth_header_same_iff :
  forall c1 c2 : ParseableConfig,
    auth_header c1 = auth_header c2 <->
    (username c1 ++ ":" ++ password c1)%string =
    (username c2 ++ ":" ++ password c2)%string.
Proof.
  intros c1 c2. unfold auth_header. split.
  - intros H. cbn in H. injection H as H.
    apply (f_equal b64decode) in H.
    rewrite !b64decode_b64encode in H. injection H as H.
    apply (f_equal decode) in H. now rewrite !decode_encode in H.
  - now intros ->.
Qed.

(** X13. The Authorization header is ASCII text of [6 + 4 * ceil(n / 3)]
    characters, [n] being the length of [username:password] in bytes. *)
Theorem auth_header_shape :
  forall c : ParseableConfig,
    let n := (String.length (username c) + 1 + String.length (password c))%nat in
    String.length (auth_header c) = (6 + 4 * ((n + 2) / 3))%nat /\
    forallb is_ascii_char (list_ascii_of_string (auth_header c)) = true.
Proof.
  intros c n. unfold auth_header.
  set (credentials := encode (username c ++ ":" ++ password c)%string).
  assert (Hn : List.length credentials = n).
  { unfold credentials. rewrite length_encode, !length_append. cbn. lia. }
  split.
  - rewrite length_append, length_decode. unfold b64encode.
    rewrite length_b2a_base64, Hn. reflexivity.
  - pose proof (encode_ascii_b64encode credentials) as H.
    unfold encode_ascii in H.
    destruct (forallb is_ascii_char
                (list_ascii_of_string (decode (b64encode credentials)))) eqn:E;
      [|discriminate H].
    cbn. exact E.
Qed.

End ConfigMore.

(* ================================================================== *)
(** * More on construction, runtime and teardown *)
(* ================================================================== *)

Section PluginMore.
Import Py OtelSetup PluginInit Views.

Variable pc : signal -> Exporters.proto_class.

Local Abbreviation init :=
  (__init__ (pc Traces) (pc Logs) (pc Metrics)).

Local Abbreviation all_classes := [TracerProvider; LoggerProvider; MeterProvider].

(** The loop up to and including a provider that raises outside
    [Exception]. *)
Lemma shutdown_loop_stops (before after : list Plugin.Provider)
      (p : Plugin.Provider) (e : exn) :
  (forall q e', In q before -> Plugin.shutdown q = Some e' ->
                is_Exception e' = true) ->
  Plugin.shutdown p = Some e ->
  is_Exception e = false ->
  Plugin.shutdown_calls (fst (Plugin.shutdown_loop (before ++ p :: after))) =
    before ++ [p] /\
  Plugin.logged (fst (Plugin.shutdown_loop (before ++ p :: after))) =
    Plugin.failures before /\
  snd (Plugin.shutdown_loop (before ++ p :: after)) = Some e.
Proof.
  intros Hbefore Hp He.
  induction before as [|q rest IH]; cbn [app Plugin.shutdown_loop Plugin.failures].
  - rewrite Hp, He. repeat split.
  - assert (Hrest : forall q' e', In q' rest -> Plugin.shutdown q' = Some e' ->
                                  is_Exception e' = true)
      by (intros q' e' Hq; apply Hbefore; now right).
    destruct (IH Hrest) as [IH1 [IH2 IH3]].
    destruct (Plugin.shutdown q) as [eq|] eqn:Eq.
    + rewrite (Hbefore q eq (or_introl eq_refl) Eq).
      destruct (Plugin.shutdown_loop (rest ++ p :: after)) as [t r].
      cbn [fst snd Plugin.shutdown_calls Plugin.logged] in *.
      repeat split; congruence.
    + destruct (Plugin.shutdown_loop (rest ++ p :: after)) as [t r].
      cbn [fst snd Plugin.shutdown_calls Plugin.logged] in *.
      repeat split; congruence.
Qed.

(** X14. Teardown stops at the first provider whose [shutdown()] raises
    outside [Exception] (a [KeyboardInterrupt], say): the providers after
    it are not shut down, that failure is not logged, and the exception
    leaves the block in place of however its body ended. *)
Theorem teardown_stops_at_base_exception :
  forall (self : Plugin.ParseablePlugin) (body : option exn)
         (before after : list Plugin.Provider) (p : Plugin.Provider) (e : exn),
    Plugin._providers self = before ++ p :: after ->
    (forall q e', In q before -> Plugin.shutdown q = Some e' ->
                  is_Exception e' = true) ->
    Plugin.shutdown p = Some e ->
    is_Exception e = false ->
    Plugin.shutdown_calls (fst (Plugin._run_context self body)) = before ++ [p] /\
    Plugin.logged (fst (Plugin._run_context self body)) = Plugin.failures before /\
    snd (Plugin._run_context self body) = Some e.
Proof.
  intros self body before after p e Hself Hbefore Hp He.
  destruct (shutdown_loop_stops before after p e Hbefore Hp He) as [H1 [H2 H3]].
  unfold Plugin._run_context. rewrite Hself.
  destruct (Plugin.shutdown_loop (before ++ p :: after)) as [t r].
  cbn [fst snd app Plugin.shutdown_calls Plugin.logged] in *.
  subst r. repeat split; assumption.
Qed.

(** X15. Construction builds one provider per enabled signal, in the
    order traces, logs, metrics, and writes one log record for each. *)
Theorem init_providers :
  forall (c : Config.ParseableConfig) (g : Globals),
    let '(self, _, log) := init (Some c) g in
    map provider_class_of (_providers self) =
      filter (fun cl => enabled c (signal_of cl)) all_classes /\
    List.length (_providers self) =
      (Nat.b2n (Config.enable_traces c) + Nat.b2n (Config.enable_logs c)
       + Nat.b2n (Config.enable_metrics c))%nat /\
    List.length log = List.length (_providers self) /\
    config self = c.
Proof.
  intros c g. unfold __init__, enabled.
  destruct (Config.enable_traces c), (Config.enable_logs c),
    (Config.enable_metrics c); repeat split.
Qed.

(** X16. Every provider construction builds carries the service name of
    the profile as its resource and exports through exactly one exporter:
    the one the factory of its own signal builds, so with the endpoint,
    the headers and the transcoding session of that signal. *)
Theorem init_wiring :
  forall (c : Config.ParseableConfig) (g : Globals),
    Forall (fun p =>
              resource p = [("service.name", Config.service_name c)] /\
              map exporter_of (processors p) =
                [exporter_for pc c (signal_of (provider_class_of p))])
      (_providers (fst (fst (init (Some c) g)))).
Proof.
  intros c g. unfold __init__.
  destruct (Config.enable_traces c), (Config.enable_logs c),
    (Config.enable_metrics c); cbn [fst _providers app];
    repeat constructor.
Qed.

(** X17. Construction touches the process-wide state of enabled signals
    only.  With traces off the global tracer provider stays; with logs
    off the global logger provider and the handlers of the root logger
    stay; with metrics off the module-level meter stays.  With logs on,
    exactly one handler is added to the root logger, at level DEBUG and
    feeding a provider that is among those the teardown shuts down. *)
Theorem init_globals :
  forall (c : Config.ParseableConfig) (g : Globals),
    let '(self, g', _) := init (Some c) g in
    (Config.enable_traces c = false -> tracer_provider g' = tracer_provider g) /\
    (Config.enable_logs c = false ->
     logger_provider g' = logger_provider g /\
     root_handlers g' = root_handlers g) /\
    (Config.enable_metrics c = false -> _meter g' = _meter g) /\
    (Config.enable_logs c = true ->
     exists h : LoggingHandler,
       root_handlers g' = root_handlers g ++ [h] /\
       level h = DEBUG /\
       In (handler_provider h) (_providers self)).
Proof.
  intros c g. unfold __init__.
  destruct (Config.enable_traces c), (Config.enable_logs c),
    (Config.enable_metrics c); cbn;
    repeat split; try discriminate; intros _;
    eexists; (split; [reflexivity|]); (split; [reflexivity|]);
    cbn; auto.
Qed.

(** X18. The metrics interceptor is handed to the worker exactly when
    metrics are enabled, and then construction has set the meter: an
    activity run through an installed interceptor always counts as
    started, once, whatever the meter was before.  Likewise the tracing
    interceptor is handed to the client exactly when traces are enabled. *)
Theorem init_interceptors :
  forall (c : Config.ParseableConfig) (g : Globals),
    let '(self, g', _) := init (Some c) g in
    worker_interceptors (base self) =
      (if Config.enable_metrics c then Some [MetricsInterceptor] else None) /\
    client_interceptors (base self) =
      (if Config.enable_traces c then Some [TracingInterceptor] else None) /\
    (worker_interceptors (base self) <> None ->
     forall (A : Type) (info : MetricsInterceptor.Info) (next : outcome A)
            (t0 t1 : float),
       MetricsInterceptor.counter_adds "temporal.activity.started"
         (fst (MetricsInterceptor.execute_activity (_meter g') info next t0 t1)) =
       [(1%Z, MetricsInterceptor.attrs_of info)]).
Proof.
  intros c g. unfold __init__.
  destruct (Config.enable_traces c), (Config.enable_logs c),
    (Config.enable_metrics c); cbn [base worker_interceptors client_interceptors
                                     list_if or_None _meter];
    (split; [reflexivity|]); (split; [reflexivity|]);
    intros H; try (now elim H);
    intros A info next t0 t1;
    unfold MetricsInterceptor.set_meter, MetricsInterceptor.execute_activity;
    (destruct next as [r | e]; [|destruct (is_Exception e)]; reflexivity).
Qed.

(** X19. The runtime is the default one exactly when metrics are
    disabled; otherwise its SDK metrics go over HTTP to the endpoint and
    with the headers of the metric exporter of the same profile, tagged
    with the service name the providers carry as resource. *)
Theorem create_runtime_consistent :
  forall (self : Instance),
    (create_runtime self = Runtime_default <->
     Config.enable_metrics (config self) = false) /\
    (forall t : TelemetryConfig,
        create_runtime self = Runtime_with t ->
        otel_url (metrics t) =
          Exporters.endpoint (exporter_for pc (config self) Metrics) /\
        otel_headers (metrics t) =
          Exporters.exporter_headers (exporter_for pc (config self) Metrics) /\
        http (metrics t) = true /\
        global_tags t = _build_resource (config self)).
Proof.
  intros self. unfold create_runtime.
  destruct (Config.enable_metrics (config self)); cbn [negb]; split.
  - split; discriminate.
  - intros t H. injection H as <-. repeat split.
  - split; reflexivity.
  - intros t H. discriminate H.
Qed.

(** X20. Construction followed by teardown: when no [shutdown()] raises
    outside [Exception], leaving the run context shuts down exactly the
    providers of the enabled signals, in the order traces, logs, metrics,
    and ends the way the body ended. *)
Theorem init_then_teardown :
  forall (c : Config.ParseableConfig) (g : Globals)
         (shutdown_of : SdkProvider -> option exn) (body : option exn),
    (forall p e, shutdown_of p = Some e -> is_Exception e = true) ->
    let plugin := for_teardown shutdown_of (fst (fst (init (Some c) g))) in
    map Plugin.type_name
      (Plugin.shutdown_calls (fst (Plugin._run_context plugin body))) =
      map class_name (filter (fun cl => enabled c (signal_of cl)) all_classes) /\
    snd (Plugin._run_context plugin body) = body.
Proof.
  intros c g shutdown_of body Hexc plugin.
  assert (H : forall p e, In p (Plugin._providers plugin) ->
                          Plugin.shutdown p = Some e -> is_Exception e = true).
  { intros p e [q [<- _]]%in_map_iff. cbn [Plugin.shutdown]. apply Hexc. }
  destruct (shutdown_loop_all (Plugin._providers plugin) H) as [H1 [_ H3]].
  unfold Plugin._run_context.
  destruct (Plugin.shutdown_loop (Plugin._providers plugin)) as [t r].
  cbn [fst snd app Plugin.shutdown_calls] in *. subst r.
  split; [|reflexivity]. rewrite H1.
  subst plugin. unfold for_teardown. cbn [Plugin._providers].
  rewrite map_map. cbn [Plugin.type_name].
  pose proof (init_providers c g) as Hp.
  destruct (init (Some c) g) as [[self g'] log]. cbn [fst].
  destruct Hp as [Hp _]. rewrite <- Hp. now rewrite map_map.
Qed.

End PluginMore.

(* ================================================================== *)
(** * More on the interceptor *)
(* ================================================================== *)

Section MetricsMore.
Import Py MetricsInterceptor Views.

(** X21. In every case, with a meter or without, the inner execution
    returning or raising, the interceptor invokes the inner execution
    exactly once and ends the way it ended.  Without a meter it does
    nothing else; with a meter the duration is the last thing it
    records, after the outcome has been counted. *)
Theorem execute_activity_calls_next_once :
  forall (A : Type) (_meter : option Meter) (info : Info) (next : outcome A)
         (t0 t1 : float),
    let run := execute_activity _meter info next t0 t1 in
    next_calls (fst run) = 1%nat /\
    snd run = next /\
    match _meter with
    | None => fst run = [NextExecuteActivity]
    | Some _ =>
        last (fst run) NextExecuteActivity =
        HistogramRecord "temporal.activity.duration" (PrimFloat.sub t1 t0)
          (attrs_of info)
    end.
Proof.
  intros A _meter info next t0 t1 run. subst run.
  unfold execute_activity.
  destruct _meter as [m|]; [|repeat split].
  destruct next as [r | e]; [|destruct (is_Exception e)]; repeat split.
Qed.

End MetricsMore.


(* ================================================================== *)
(** * More concrete runs *)
(* ================================================================== *)

Section MoreRuns.
Import Py Base64 Requests Exporters Aux Views Samples MoreSamples.

Lemma identifier_rendering_witness :
  _b64_to_hex (decode (b64encode deadbeef)) = _b64_to_hex (decode (b64encode deadbeef)) /\
  String.length (_b64_to_hex (decode (b64encode deadbeef))) = 32%nat /\
  deadbeef = deadbeef.
Proof.
  destruct (identifier_rendering deadbeef deadbeef) as [H1 [_ H3]].
  split; [reflexivity|]. split; [exact H1 | exact (H3 eq_refl)].
Defined.

(** Sixteen bytes come out wrong the second time; one byte survives. *)
Lemma fix_up_twice_witness :
  deadbeef <> [] /\
  Nat.even (List.length deadbeef) = true /\
  Nat.even (List.length [xde]) = false /\
  _b64_to_hex (_b64_to_hex (decode (b64encode deadbeef))) <>
    _b64_to_hex (decode (b64encode deadbeef)) /\
  _b64_to_hex (_b64_to_hex (decode (b64encode [xde]))) =
    _b64_to_hex (decode (b64encode [xde])).
Proof.
  assert (H1 : deadbeef <> []) by discriminate.
  assert (H2 : Nat.even (List.length deadbeef) = true) by reflexivity.
  assert (H3 : Nat.even (List.length [xde]) = false) by reflexivity.
  split; [exact H1|]. split; [exact H2|]. split; [exact H3|].
  split.
  - exact (proj1 (fix_up_twice deadbeef) H1 H2).
  - exact (proj2 (fix_up_twice [xde]) H3).
Defined.

(** A log record without identifier keys is returned as it is, although
    it holds base64 text and the text [traceId] as a value. *)
Lemma fix_bytes_fields_unchanged_iff_witness :
  identifiers_stable record_doc = true /\
  _fix_bytes_fields record_doc = record_doc.
Proof.
  assert (H : identifiers_stable record_doc = true) by reflexivity.
  split; [exact H|].
  exact (proj2 (fix_bytes_fields_unchanged_iff record_doc) H).
Defined.

Lemma fix_bytes_fields_distinct_keys_witness :
  distinct_keys span_doc /\
  distinct_keys (_fix_bytes_fields span_doc) /\
  fix_by_assignment span_doc = _fix_bytes_fields span_doc.
Proof.
  assert (H : distinct_keys span_doc).
  { apply distinct_dict.
    - repeat constructor; cbn; intros H;
        repeat destruct H as [H|H]; try discriminate H; exact H.
    - repeat constructor. }
  split; [exact H|].
  exact (fix_bytes_fields_distinct_keys span_doc H).
Defined.

(** [abc] and [ab!cd] under the lenient decoder. *)
Lemma b64_to_hex_without_padding_witness :
  forallb is_ascii_char (list_ascii_of_string "ab!cd") = true /\
  ~ In BASE64_PAD (encode "ab!cd") /\
  (data_chars (encode "ab!cd") mod 4 = 0)%nat /\
  (data_chars (encode "abc") mod 4 <> 0)%nat /\
  (2 * String.length (_b64_to_hex "ab!cd") = 3 * 4)%nat /\
  _b64_to_hex "abc" = "abc".
Proof.
  assert (H1 : forallb is_ascii_char (list_ascii_of_string "ab!cd") = true)
    by reflexivity.
  assert (H2 : ~ In BASE64_PAD (encode "ab!cd")).
  { cbn. intros H. repeat destruct H as [H|H]; try discriminate H; exact H. }
  assert (H3 : (data_chars (encode "ab!cd") mod 4 = 0)%nat) by reflexivity.
  assert (H4 : (data_chars (encode "abc") mod 4 <> 0)%nat) by discriminate.
  assert (H5 : forallb is_ascii_char (list_ascii_of_string "abc") = true)
    by reflexivity.
  assert (H6 : ~ In BASE64_PAD (encode "abc")).
  { cbn. intros H. repeat destruct H as [H|H]; try discriminate H; exact H. }
  split; [exact H1|]. split; [exact H2|]. split; [exact H3|]. split; [exact H4|].
  split.
  - exact (proj2 (proj2 (b64_to_hex_without_padding "ab!cd") H1 H2) H3).
  - exact (proj1 (proj2 (b64_to_hex_without_padding "abc") H5 H6) H4).
Defined.

Lemma headers_ok_protobuf_request : headers_ok (headers protobuf_request).
Proof.
  split.
  - repeat constructor; cbn; intros H;
      repeat destruct H as [H|H]; try discriminate H; exact H.
  - repeat constructor.
Defined.

(** The sample protobuf request through [send]. *)
Lemma send_frame_witness :
  exists request' : PreparedRequest,
    send Samples.json_dumps PreparedRequest (fun r => r)
      {| _proto_class := SpanId |} protobuf_request = inl request' /\
    url request' = url protobuf_request.
Proof.
  eexists. split; [reflexivity|].
  exact (proj1 (send_frame Samples.json_dumps {| _proto_class := SpanId |}
                  protobuf_request _ eq_refl)).
Defined.

Lemma send_keeps_headers_consistent_witness :
  exists request' : PreparedRequest,
    send Samples.json_dumps PreparedRequest (fun r => r)
      {| _proto_class := SpanId |} protobuf_request = inl request' /\
    (request' = protobuf_request \/
     exists b : bytes,
       body request' = BodyBytes b /\
       get (headers request') "Content-Type" = Some "application/json" /\
       get (headers request') "Content-Length" = Some (str_of_nat (len b))).
Proof.
  eexists. split; [reflexivity|].
  exact (send_keeps_headers_consistent Samples.json_dumps
           {| _proto_class := SpanId |} protobuf_request _ eq_refl).
Defined.

Lemma send_twice_witness :
  exists request' : PreparedRequest,
    send Samples.json_dumps PreparedRequest (fun r => r)
      {| _proto_class := SpanId |} protobuf_request = inl request' /\
    request' <> protobuf_request /\
    send Samples.json_dumps PreparedRequest (fun r => r)
      {| _proto_class := SpanId |} request' = inl request'.
Proof.
  eexists. split; [reflexivity|]. split; [discriminate|].
  exact (send_twice Samples.json_dumps {| _proto_class := SpanId |}
           protobuf_request _ eq_refl).
Defined.

Lemma send_keeps_headers_ok_witness :
  exists request' : PreparedRequest,
    headers_ok (headers protobuf_request) /\
    send Samples.json_dumps PreparedRequest (fun r => r)
      {| _proto_class := SpanId |} protobuf_request = inl request' /\
    headers_ok (headers request').
Proof.
  eexists. split; [exact headers_ok_protobuf_request|].
  split; [reflexivity|].
  exact (send_keeps_headers_ok Samples.json_dumps {| _proto_class := SpanId |}
           protobuf_request _ headers_ok_protobuf_request eq_refl).
Defined.


(** The session of the trace exporter leaves a request to the logs
    endpoint alone. *)
Lemma exporter_sessions_isolated_witness :
  Traces <> Logs /\
  startswith (lower (url logs_request))
    (lower (endpoint_for Config.default_config Logs)) = true /\
  get_adapter (session (exporter_for pcs Config.default_config Traces))
    (url logs_request) = get_adapter Session (url logs_request).
Proof.
  assert (H1 : Traces <> Logs) by discriminate.
  assert (H2 : startswith (lower (url logs_request))
                 (lower (endpoint_for Config.default_config Logs)) = true)
    by reflexivity.
  split; [exact H1|]. split; [exact H2|].
  exact (proj1 (exporter_sessions_isolated Samples.json_dumps pcs
                  Config.default_config Traces Logs logs_request
                  PreparedRequest (fun r => r) H1 H2)).
Defined.

(** User [a:b] with password [c] and user [a] with password [b:c] send
    the same header. *)
Lemma auth_header_same_iff_witness :
  Config.username (with_credentials "a:b" "c") <>
    Config.username (with_credentials "a" "b:c") /\
  Config.auth_header (with_credentials "a:b" "c") =
    Config.auth_header (with_credentials "a" "b:c").
Proof.
  split; [discriminate|].
  apply (proj2 (auth_header_same_iff (with_credentials "a:b" "c")
                  (with_credentials "a" "b:c"))).
  reflexivity.
Defined.

(** The tracer provider fails, the logger provider is interrupted, the
    meter provider is never reached. *)
Lemma teardown_stops_at_base_exception_witness :
  Plugin.shutdown_calls
    (fst (Plugin._run_context
            {| Plugin.config := Config.default_config;
               Plugin._providers :=
                 [tracer_provider; interrupted_provider; meter_provider] |}
            None)) = [tracer_provider; interrupted_provider] /\
  snd (Plugin._run_context
         {| Plugin.config := Config.default_config;
            Plugin._providers :=
              [tracer_provider; interrupted_provider; meter_provider] |}
         None) = Some KeyboardInterrupt.
Proof.
  destruct (teardown_stops_at_base_exception
              {| Plugin.config := Config.default_config;
                 Plugin._providers :=
                   [tracer_provider; interrupted_provider; meter_provider] |}
              None [tracer_provider] [meter_provider] interrupted_provider
              KeyboardInterrupt eq_refl) as [H1 [_ H3]].
  - intros q e' [<- | []] E. cbn in E. injection E as <-. reflexivity.
  - reflexivity.
  - reflexivity.
  - split; [exact H1 | exact H3].
Defined.

(** The default profile in a fresh process. *)
Lemma init_globals_witness :
  Config.enable_logs Config.default_config = true /\
  let '(self, g', _) :=
    PluginInit.__init__ (pcs Traces) (pcs Logs) (pcs Metrics)
      (Some Config.default_config) fresh in
  exists h : OtelSetup.LoggingHandler,
    OtelSetup.root_handlers g' = OtelSetup.root_handlers fresh ++ [h] /\
    OtelSetup.level h = OtelSetup.DEBUG /\
    In (OtelSetup.handler_provider h) (PluginInit._providers self).
Proof.
  split; [reflexivity|].
  pose proof (init_globals pcs Config.default_config fresh) as H.
  destruct (PluginInit.__init__ (pcs Traces) (pcs Logs) (pcs Metrics)
              (Some Config.default_config) fresh) as [[self g'] log].
  destruct H as [_ [_ [_ H]]]. apply H. reflexivity.
Defined.

Lemma init_interceptors_witness :
  let '(self, g', _) :=
    PluginInit.__init__ (pcs Traces) (pcs Logs) (pcs Metrics)
      (Some Config.default_config) fresh in
  PluginInit.worker_interceptors (PluginInit.base self) <> None /\
  MetricsInterceptor.counter_adds "temporal.activity.started"
    (fst (MetricsInterceptor.execute_activity (OtelSetup._meter g') info
            (Returns tt) PrimFloat.zero PrimFloat.one)) =
  [(1%Z, MetricsInterceptor.attrs_of info)].
Proof.
  pose proof (init_interceptors pcs Config.default_config fresh) as H.
  destruct (PluginInit.__init__ (pcs Traces) (pcs Logs) (pcs Metrics)
              (Some Config.default_config) fresh) as [[self g'] log].
  destruct H as [Hw [_ H]].
  assert (Hne : PluginInit.worker_interceptors (PluginInit.base self) <> None)
    by (rewrite Hw; discriminate).
  split; [exact Hne|]. apply H. exact Hne.
Defined.

Lemma create_runtime_consistent_witness :
  let self := fst (fst (PluginInit.__init__ (pcs Traces) (pcs Logs) (pcs Metrics)
                          (Some Config.default_config) fresh)) in
  exists t : PluginInit.TelemetryConfig,
    PluginInit.create_runtime self = PluginInit.Runtime_with t /\
    PluginInit.otel_url (PluginInit.metrics t) = "http://localhost:8000/v1/metrics" /\
    PluginInit.http (PluginInit.metrics t) = true.
Proof.
  intros self. eexists. split; [reflexivity|].
  destruct (proj2 (create_runtime_consistent pcs self) _ eq_refl)
    as [H1 [_ [H3 _]]].
  split; [exact H1 | exact H3].
Defined.

Lemma init_then_teardown_witness :
  (forall p e, tracer_fails p = Some e -> is_Exception e = true) /\
  map Plugin.type_name
    (Plugin.shutdown_calls
       (fst (Plugin._run_context
               (PluginInit.for_teardown tracer_fails
                  (fst (fst (PluginInit.__init__ (pcs Traces) (pcs Logs)
                               (pcs Metrics) (Some Config.default_config) fresh))))
               None))) =
  ["TracerProvider"; "LoggerProvider"; "MeterProvider"].
Proof.
  assert (H : forall p e, tracer_fails p = Some e -> is_Exception e = true).
  { intros p e. unfold tracer_fails.
    destruct (OtelSetup.provider_class_of p); intros E;
      try discriminate E; injection E as <-; reflexivity. }
  split; [exact H|].
  exact (proj1 (init_then_teardown pcs Config.default_config fresh
                  tracer_fails None H)).
Defined.

End MoreRuns.
